(** * media-organizer: a shallow embedding of [media-organizer.py]

    The script walks a source tree, resolves a date for every photo or
    video (EXIF [DateTimeOriginal], then creation time, then modification
    time) and moves the file to [dest/YYYY/YYYY_MM/] under a dated name.

    Conventions of the embedding:
    - a Python [str] is a [string]: a sequence of code points below 256
      (the Latin-1 range); [str.lower] and [str.isalnum] are given on that
      range;
    - [os.path] is [posixpath] ([os.sep] is the slash);
    - the file system is a finite map from resolved absolute paths to
      nodes; the directory walk ([os.walk]) is an input: the list of
      [(root, files)] pairs it yields;
    - code that may raise runs in a small state-and-exception monad, so
      that [try]/[except] is a function on outcomes. *)

From Stdlib Require Import Ascii String List ZArith NArith Lia Bool.
From Stdlib Require Import DecimalString DecimalPos DecimalN.
From stdpp Require Import gmap strings list fin_maps.

Local Open Scope string_scope.
Local Open Scope list_scope.

(** ** Python strings *)

Module Py.

Definition chr (n : N) : ascii := ascii_of_N n.
Definition ord (c : ascii) : N := N_of_ascii c.

Definition between (lo hi n : N) : bool := (lo <=? n)%N && (n <=? hi)%N.

(** [str.lower] on one code point below 256: the ASCII capitals and the
    Latin-1 capitals 192..222 (except the multiplication sign 215). *)
Definition lower_char (c : ascii) : ascii :=
  let n := ord c in
  if between 65 90 n || (between 192 222 n && negb (n =? 215)%N)
  then chr (n + 32) else c.

Fixpoint lower (s : string) : string :=
  match s with
  | EmptyString => EmptyString
  | String c r => String (lower_char c) (lower r)
  end.

(** [c.isalnum()] on one code point below 256: letters, decimal digits and
    the Latin-1 code points that Unicode classes as letters or numbers. *)
Definition isalnum (c : ascii) : bool :=
  let n := ord c in
  between 48 57 n || between 65 90 n || between 97 122 n
  || (n =? 170)%N || (n =? 178)%N || (n =? 179)%N || (n =? 181)%N
  || (n =? 185)%N || (n =? 186)%N || between 188 190 n
  || between 192 214 n || between 216 246 n || between 248 255 n.

Fixpoint startswith (s p : string) : bool :=
  match p, s with
  | EmptyString, _ => true
  | String a p', String b s' => if Ascii.eqb a b then startswith s' p' else false
  | String _ _, EmptyString => false
  end.

Fixpoint rev_acc (s acc : string) : string :=
  match s with
  | EmptyString => acc
  | String c r => rev_acc r (String c acc)
  end.

Definition rev (s : string) : string := rev_acc s EmptyString.

Definition endswith (s p : string) : bool := startswith (rev s) (rev p).

(** [s.endswith((p1, p2, ...))] *)
Definition endswith_any (s : string) (ps : list string) : bool :=
  existsb (endswith s) ps.

(** [s.replace(a, b)] for one-character [a] and [b]. *)
Fixpoint replace (a b : ascii) (s : string) : string :=
  match s with
  | EmptyString => EmptyString
  | String c r => String (if Ascii.eqb c a then b else c) (replace a b r)
  end.

(** [''.join(c for c in s if keep c)] *)
Fixpoint filter_chars (keep : ascii -> bool) (s : string) : string :=
  match s with
  | EmptyString => EmptyString
  | String c r => if keep c then String c (filter_chars keep r) else filter_chars keep r
  end.

(** [s.split(sep)] for a one-character separator: never the empty list,
    empty pieces are kept. *)
Fixpoint split (sep : ascii) (s : string) : list string :=
  match s with
  | EmptyString => [EmptyString]
  | String c r =>
      if Ascii.eqb c sep then EmptyString :: split sep r
      else match split sep r with
           | [] => [String c EmptyString]
           | p :: ps => String c p :: ps
           end
  end.

(** [sep.join(parts)] *)
Fixpoint join (sep : string) (parts : list string) : string :=
  match parts with
  | [] => EmptyString
  | [p] => p
  | p :: ps => p +:+ sep +:+ join sep ps
  end.

(** [str(n)] for a non-negative integer. *)
Definition str (n : N) : string := NilZero.string_of_uint (N.to_uint n).

(** [c in s] for a character. *)
Fixpoint contains (c : ascii) (s : string) : bool :=
  match s with
  | EmptyString => false
  | String d r => Ascii.eqb c d || contains c r
  end.

Fixpoint repeat_char (c : ascii) (n : nat) : string :=
  match n with O => EmptyString | S k => String c (repeat_char c k) end.

(** Truth value of a string: non-empty. *)
Definition truthy (s : string) : bool :=
  match s with EmptyString => false | _ => true end.

End Py.

(** ** Exceptions *)

(** The exception classes the script can meet; all derive from
    [Exception], the class both [except] clauses catch. *)
Inductive exn : Type :=
  | FileNotFoundError
  | FileExistsError
  | NotADirectoryError
  | IsADirectoryError
  | PermissionError
  | OSError
  | OverflowError
  | ValueError
  | TypeError
  | AttributeError
  | IndexError
  | UnidentifiedImageError
  | ShutilError
  | UnicodeEncodeError.

Inductive result (A : Type) : Type :=
  | Ok (a : A)
  | Raise (e : exn).
Arguments Ok {A} a.
Arguments Raise {A} e.

(** ** [posixpath] *)

Module Posixpath.

Definition sep : ascii := "/"%char.
Definition sep_s : string := "/".
Definition curdir : string := ".".
Definition pardir : string := "..".

(** [os.path.join(a, b)] *)
Definition join (a b : string) : string :=
  if Py.startswith b sep_s then b
  else if negb (Py.truthy a) || Py.endswith a sep_s then a +:+ b
  else a +:+ sep_s +:+ b.

(** [os.path.join(a, *p)] *)
Definition join_all (a : string) (p : list string) : string :=
  fold_left join p a.

(** [s.rfind(c)]: index of the last occurrence, or -1. *)
Fixpoint rfind_from (c : ascii) (s : string) (i : Z) (found : Z) : Z :=
  match s with
  | EmptyString => found
  | String d r => rfind_from c r (i + 1) (if Ascii.eqb d c then i else found)
  end.

Definition rfind (c : ascii) (s : string) : Z := rfind_from c s 0 (-1).

(** The slices [p[:i]] and [p[i:]] for [0 <= i]. *)
Definition slice_to (p : string) (i : Z) : string :=
  String.substring 0 (Z.to_nat i) p.
Definition slice_from (p : string) (i : Z) : string :=
  String.substring (Z.to_nat i) (String.length p - Z.to_nat i) p.

(** [s.rstrip('/')] *)
Fixpoint lstrip_sep (s : string) : string :=
  match s with
  | String c r => if Ascii.eqb c sep then lstrip_sep r else s
  | EmptyString => EmptyString
  end.
Definition rstrip_sep (s : string) : string := Py.rev (lstrip_sep (Py.rev s)).

(** [os.path.split(p)]: head and tail around the last slash. *)
Definition split (p : string) : string * string :=
  let i := (rfind sep p + 1)%Z in
  let head := slice_to p i in
  let tail := slice_from p i in
  let head := if Py.truthy head && Py.truthy (lstrip_sep head)
              then rstrip_sep head else head in
  (head, tail).

(** The loop of [_splitext] that skips the leading dots of the last
    component: [n] positions are left to inspect from index [i]. *)
Fixpoint splitext_scan (p : string) (dotIndex : Z) (n : nat) (i : Z)
  : option (string * string) :=
  match n with
  | O => None
  | S n' =>
      if negb (String.eqb (String.substring (Z.to_nat i) 1 p) ".")
      then Some (slice_to p dotIndex, slice_from p dotIndex)
      else splitext_scan p dotIndex n' (i + 1)
  end.

(** [os.path.splitext(p)] *)
Definition splitext (p : string) : string * string :=
  let sepIndex := rfind sep p in
  let dotIndex := rfind "."%char p in
  if (sepIndex <? dotIndex)%Z then
    let filenameIndex := (sepIndex + 1)%Z in
    match splitext_scan p dotIndex (Z.to_nat (dotIndex - filenameIndex)) filenameIndex with
    | Some r => r
    | None => (p, EmptyString)
    end
  else (p, EmptyString).

(** One turn of the component loop of [normpath]. *)
Definition normpath_step (initial_slashes : nat) (new_comps : list string)
    (comp : string) : list string :=
  if String.eqb comp EmptyString || String.eqb comp curdir then new_comps
  else if negb (String.eqb comp pardir)
          || ((initial_slashes =? 0)%nat && bool_decide (new_comps = []))
          || (negb (bool_decide (new_comps = []))
              && String.eqb (List.last new_comps EmptyString) pardir)
       then new_comps ++ [comp]
       else List.removelast new_comps.

Fixpoint repeat_sep (n : nat) : string :=
  match n with O => EmptyString | S k => String sep (repeat_sep k) end.

(** [os.path.normpath(path)] *)
Definition normpath (path : string) : string :=
  if String.eqb path EmptyString then curdir
  else
    let initial_slashes :=
      if Py.startswith path sep_s then
        if Py.startswith path "//" && negb (Py.startswith path "///")
        then 2%nat else 1%nat
      else 0%nat in
    let comps := Py.split sep path in
    let new_comps := fold_left (normpath_step initial_slashes) comps [] in
    let path := Py.join sep_s new_comps in
    let path := repeat_sep initial_slashes +:+ path in
    if Py.truthy path then path else curdir.

(** [os.path.abspath(path)], with [cwd] the value of [os.getcwd()]. *)
Definition abspath (cwd path : string) : string :=
  normpath (if Py.startswith path sep_s then path else join cwd path).

(** Length of the longest common prefix of two component lists
    ([len(commonprefix([a, b]))]). *)
Fixpoint common_len (a b : list string) : nat :=
  match a, b with
  | x :: a', y :: b' => if String.eqb x y then S (common_len a' b') else O
  | _, _ => O
  end.

(** [os.path.relpath(path, start)] *)
Definition relpath (cwd path start : string) : result string :=
  if negb (Py.truthy path) then Raise ValueError
  else
    let start_list := List.filter Py.truthy (Py.split sep (abspath cwd start)) in
    let path_list := List.filter Py.truthy (Py.split sep (abspath cwd path)) in
    let i := common_len start_list path_list in
    let rel_list := List.repeat pardir (List.length start_list - i)
                    ++ List.skipn i path_list in
    match rel_list with
    | [] => Ok curdir
    | a :: p => Ok (join_all a p)
    end.

End Posixpath.

(** ** [datetime] *)

Record datetime : Type := mkDatetime {
  year : N;
  month : N;
  day : N;
  hour : N;
  minute : N;
  second : N;
  microsecond : N
}.

Module Datetime.

Definition is_leap (y : N) : bool :=
  ((y mod 4 =? 0) && (negb (y mod 100 =? 0) || (y mod 400 =? 0)))%N.

Definition days_in_month (y m : N) : N :=
  if (m =? 2)%N then (if is_leap y then 29 else 28)%N
  else if (m =? 4)%N || (m =? 6)%N || (m =? 9)%N || (m =? 11)%N then 30%N
  else 31%N.

(** The range checks of the [datetime] constructor. *)
Definition valid (d : datetime) : bool :=
  Py.between 1 9999 (year d) && Py.between 1 12 (month d)
  && Py.between 1 (days_in_month (year d) (month d)) (day d)
  && (hour d <? 24)%N && (minute d <? 60)%N && (second d <? 60)%N
  && (microsecond d <? 1000000)%N.

(** A [datetime] object is always true in a condition. *)
Definition truthy (d : datetime) : bool := true.

(** Decimal rendering, zero-filled to [w] characters. *)
Definition zfill (w : nat) (s : string) : string :=
  Py.repeat_char "0"%char (w - String.length s) +:+ s.

(** What the directives of [strftime] give on the platform: two digits
    for the month, the day and the time; the year as it is, since the C
    library does not pad [%Y] (the year 999 gives ["999"]). *)
Definition fmt_Y (d : datetime) : string := Py.str (year d).
Definition fmt_m (d : datetime) : string := zfill 2 (Py.str (month d)).
Definition fmt_d (d : datetime) : string := zfill 2 (Py.str (day d)).
Definition fmt_H (d : datetime) : string := zfill 2 (Py.str (hour d)).
Definition fmt_M (d : datetime) : string := zfill 2 (Py.str (minute d)).
Definition fmt_S (d : datetime) : string := zfill 2 (Py.str (second d)).

(** [d.strftime("%Y")] *)
Definition strftime_Y (d : datetime) : string := fmt_Y d.

(** [d.strftime("%Y_%m_%d")] *)
Definition strftime_Y_m_d (d : datetime) : string :=
  fmt_Y d +:+ "_" +:+ fmt_m d +:+ "_" +:+ fmt_d d.

(** [d.strftime('%Y-%m-%d %H:%M:%S')] *)
Definition strftime_log (d : datetime) : string :=
  fmt_Y d +:+ "-" +:+ fmt_m d +:+ "-" +:+ fmt_d d +:+ " "
  +:+ fmt_H d +:+ ":" +:+ fmt_M d +:+ ":" +:+ fmt_S d.

(** The text an EXIF writer stores for [d]: ["YYYY:MM:DD HH:MM:SS"], the
    year in four digits. *)
Definition exif_Y (d : datetime) : string := zfill 4 (Py.str (year d)).
Definition exif_text (d : datetime) : string :=
  exif_Y d +:+ ":" +:+ fmt_m d +:+ ":" +:+ fmt_d d +:+ " "
  +:+ fmt_H d +:+ ":" +:+ fmt_M d +:+ ":" +:+ fmt_S d.

(** *** [datetime.strptime(value, '%Y:%m:%d %H:%M:%S')]

    [_strptime] turns the format into a regular expression, one group of
    ordered alternatives per directive, and matches it at the start of the
    text, backtracking over the alternatives in order. *)

(** A character class of the expression. *)
Inductive cls : Type :=
  | Digits (lo hi : N)   (* [lo-hi], offsets from the digit zero *)
  | Blank.               (* a literal space *)

Definition in_cls (c : cls) (x : ascii) : bool :=
  match c with
  | Digits lo hi => Py.between (48 + lo) (48 + hi) (Py.ord x)
  | Blank => Ascii.eqb x " "%char
  end.

Definition D : cls := Digits 0 9.

(** The groups of the directives, alternatives in the order of the
    library's table. *)
Definition re_Y : list (list cls) := [[D; D; D; D]].
Definition re_m : list (list cls) :=
  [[Digits 1 1; Digits 0 2]; [Digits 0 0; Digits 1 9]; [Digits 1 9]].
Definition re_d : list (list cls) :=
  [[Digits 3 3; Digits 0 1]; [Digits 1 2; D]; [Digits 0 0; Digits 1 9];
   [Digits 1 9]; [Blank; Digits 1 9]].
Definition re_H : list (list cls) :=
  [[Digits 2 2; Digits 0 3]; [Digits 0 1; D]; [D]].
Definition re_M : list (list cls) := [[Digits 0 5; D]; [D]].
Definition re_S : list (list cls) :=
  [[Digits 6 6; Digits 0 1]; [Digits 0 5; D]; [D]].

Inductive item : Type :=
  | Directive (alts : list (list cls))
  | Literal (c : ascii)
  | Whitespace.   (* \s+ *)

(** The compiled format. *)
Definition format_items : list item :=
  [Directive re_Y; Literal ":"; Directive re_m; Literal ":"; Directive re_d;
   Whitespace;
   Directive re_H; Literal ":"; Directive re_M; Literal ":"; Directive re_S].

(** [\s] on code points below 256. *)
Definition isspace (x : ascii) : bool :=
  let n := Py.ord x in
  Py.between 9 13 n || Py.between 28 32 n || (n =? 133)%N || (n =? 160)%N.

Fixpoint match_alt (a : list cls) (s : string) : option (string * string) :=
  match a with
  | [] => Some (EmptyString, s)
  | c :: a' =>
      match s with
      | String x r =>
          if in_cls c x then
            match match_alt a' r with
            | Some (m, rest) => Some (String x m, rest)
            | None => None
            end
          else None
      | EmptyString => None
      end
  end.

Section Backtracking.
Context {R : Type}.

(** First alternative, in order, after which the rest of the expression
    matches too. *)
Fixpoint try_alts (alts : list (list cls)) (s : string)
    (cont : string -> string -> option R) : option R :=
  match alts with
  | [] => None
  | a :: more =>
      match match_alt a s with
      | Some (m, rest) =>
          match cont m rest with
          | Some r => Some r
          | None => try_alts more s cont
          end
      | None => try_alts more s cont
      end
  end.

(** [\s*] then the rest: the longest run first. *)
Fixpoint match_ws_star (cont : string -> option R) (s : string) : option R :=
  match s with
  | String x r =>
      if isspace x then
        match match_ws_star cont r with
        | Some v => Some v
        | None => cont s
        end
      else cont s
  | EmptyString => cont s
  end.

Definition match_ws_plus (cont : string -> option R) (s : string) : option R :=
  match s with
  | String x r => if isspace x then match_ws_star cont r else None
  | EmptyString => None
  end.
End Backtracking.

(** [re.match]: the texts of the groups and the unmatched remainder. *)
Fixpoint match_items (its : list item) (s : string)
  : option (list string * string) :=
  match its with
  | [] => Some ([], s)
  | Directive alts :: its' =>
      try_alts alts s (fun m r =>
        match match_items its' r with
        | Some (ms, e) => Some (m :: ms, e)
        | None => None
        end)
  | Literal c :: its' =>
      match s with
      | String x r => if Ascii.eqb x c then match_items its' r else None
      | EmptyString => None
      end
  | Whitespace :: its' => match_ws_plus (match_items its') s
  end.

(** [int(text)] of a group: decimal digits, a leading blank ignored. *)
Fixpoint int_acc (s : string) (acc : N) : N :=
  match s with
  | EmptyString => acc
  | String x r =>
      if Py.between 48 57 (Py.ord x) then int_acc r (10 * acc + (Py.ord x - 48))%N
      else int_acc r acc
  end.
Definition int (s : string) : N := int_acc s 0.

Definition strptime (value : string) : result datetime :=
  match match_items format_items value with
  | None => Raise ValueError
  | Some (groups, rest) =>
      if Py.truthy rest then Raise ValueError
      else
        match groups with
        | [gY; gm; gd; gH; gM; gS] =>
            let d := mkDatetime (int gY) (int gm) (int gd)
                                (int gH) (int gM) (int gS) 0 in
            if valid d then Ok d else Raise ValueError
        | _ => Raise ValueError
        end
  end.

End Datetime.

(** ** The file system *)

(** What [PIL.Image.open] and [img._getexif()] deliver for a file: the
    value of an EXIF tag is a text or something else (bytes, a number,
    a tuple). *)
Inductive exif_value : Type :=
  | ExifText (s : string)
  | ExifOther.

Definition exif_dict : Type := list (N * exif_value).

Record image : Type := mkImage {
  getexif : result (option exif_dict)   (* [img._getexif()] *)
}.

(** A node of the file system. [n_open] is the outcome of [Image.open] on
    it; [n_ctime] and [n_mtime] are the outcomes of
    [datetime.fromtimestamp(os.path.getctime(p))] and of the same with
    [getmtime]: reading the time stamp and converting it, either of which
    may raise. *)
Record node : Type := mkNode {
  n_is_dir : bool;
  n_open : result image;
  n_ctime : result datetime;
  n_mtime : result datetime
}.

(** The process environment: [os.getcwd()], the clock that stamps new
    directories, and the line the user types at the confirmation prompt. *)
Record environment : Type := mkEnv {
  cwd : string;
  now : datetime;
  answer : string
}.

Module Fs.

(** A resolved path: the components below the root directory. *)
Definition key : Type := list string.

Definition resolve_step (comps : key) (c : string) : key :=
  if String.eqb c EmptyString || String.eqb c Posixpath.curdir then comps
  else if String.eqb c Posixpath.pardir then List.removelast comps
  else comps ++ [c].

(** Path resolution of the kernel, without symbolic links: a relative
    path starts from the working directory. *)
Definition resolve (env : environment) (p : string) : key :=
  let comps :=
    if Py.startswith p Posixpath.sep_s then Py.split Posixpath.sep p
    else Py.split Posixpath.sep (cwd env) ++ Py.split Posixpath.sep p in
  fold_left resolve_step comps [].

Definition dir_node (env : environment) : node :=
  mkNode true (Raise IsADirectoryError) (Ok (now env)) (Ok (now env)).

Section Operations.
Context (env : environment).
Implicit Types (fs : gmap key node) (p : string).

Definition lookup_key fs (k : key) : option node :=
  match k with
  | [] => Some (dir_node env)   (* the root directory *)
  | _ => fs !! k
  end.

Definition lookup_path fs p : option node := lookup_key fs (resolve env p).

(** [os.path.exists(p)] *)
Definition path_exists fs p : bool :=
  match lookup_path fs p with Some _ => true | None => false end.

(** [os.path.isdir(p)] *)
Definition isdir fs p : bool :=
  match lookup_path fs p with Some n => n_is_dir n | None => false end.

(** [datetime.fromtimestamp(os.path.getctime(p))] *)
Definition ctime fs p : result datetime :=
  match lookup_path fs p with
  | Some n => n_ctime n
  | None => Raise FileNotFoundError
  end.

(** [datetime.fromtimestamp(os.path.getmtime(p))] *)
Definition mtime fs p : result datetime :=
  match lookup_path fs p with
  | Some n => n_mtime n
  | None => Raise FileNotFoundError
  end.

(** [Image.open(p)] *)
Definition image_open fs p : result image :=
  match lookup_path fs p with
  | Some n => n_open n
  | None => Raise FileNotFoundError
  end.

(** [os.makedirs(name, exist_ok=True)] on the resolved path: the
    components [todo] are still to be entered below [done]. A missing
    directory is created; an existing directory is entered; a file in the
    way raises ([FileExistsError] when it is the leaf, the [mkdir] of the
    next level fails with [NotADirectoryError] otherwise). *)
Fixpoint makedirs_from fs (done todo : key) : gmap key node * option exn :=
  match todo with
  | [] => (fs, None)
  | c :: rest =>
      let k := done ++ [c] in
      match fs !! k with
      | Some n =>
          if n_is_dir n then makedirs_from fs k rest
          else (fs, Some (match rest with
                          | [] => FileExistsError
                          | _ => NotADirectoryError
                          end))
      | None => makedirs_from (<[k := dir_node env]> fs) k rest
      end
  end.

Definition makedirs fs p : gmap key node * option exn :=
  makedirs_from fs [] (resolve env p).

(** The node after a rename: the kernel sets its status-change time.
    The directories that lose and gain the entry get new time stamps as
    well; the program reads the time stamps of files only, and the nodes
    of directories keep theirs here. *)
Definition renamed (n : node) : node :=
  mkNode (n_is_dir n) (n_open n) (Ok (now env)) (n_mtime n).

(** [os.rename(src, dst)]: the node moves to the new path; the parent of
    the new path must be a directory, and a directory is not replaced.
    (A source that is a directory moves as one node: the walk lists
    files.) *)
Definition rename fs (src dst : string) : gmap key node * option exn :=
  let ks := resolve env src in
  let kd := resolve env dst in
  match ks, fs !! ks with
  | [], _ => (fs, Some OSError)
  | _, None => (fs, Some FileNotFoundError)
  | _, Some n =>
      match kd with
      | [] => (fs, Some OSError)
      | _ =>
          if bool_decide (ks = kd) then (fs, None) else
          match lookup_key fs (List.removelast kd) with
          | None => (fs, Some FileNotFoundError)
          | Some parent =>
              if negb (n_is_dir parent) then (fs, Some NotADirectoryError)
              else
                match fs !! kd with
                | Some old =>
                    if n_is_dir old then (fs, Some IsADirectoryError)
                    else if n_is_dir n then (fs, Some NotADirectoryError)
                    else (<[kd := renamed n]> (delete ks fs), None)
                | None => (<[kd := renamed n]> (delete ks fs), None)
                end
          end
      end
  end.

(** [shutil._basename(p)]: the last component, a trailing slash
    ignored. *)
Definition basename (p : string) : string :=
  snd (Posixpath.split (Posixpath.rstrip_sep p)).

(** [shutil.move(src, dst)]. When [os.rename] raises, the library falls
    back to copying and unlinking, which meets the same obstacle: the
    exception of the rename is the outcome. *)
Definition move fs (src dst : string) : gmap key node * option exn :=
  if isdir fs dst then
    if bool_decide (resolve env src = resolve env dst) then rename fs src dst
    else
      let real_dst := Posixpath.join dst (basename src) in
      if path_exists fs real_dst then (fs, Some ShutilError)
      else rename fs src real_dst
  else rename fs src dst.
End Operations.

End Fs.

(** ** The program state and its monad *)

(** The lines the script prints, with the values they interpolate. *)
Inductive event : Type :=
  | EvBanner (source_path destination_path : string)
  | EvWhatIfMode
  | EvCancelled
  | EvStarting
  | EvWarningNoDate (filename : string)
  | EvProcessing (filename : string)
  | EvDetectedDate (text : string)
  | EvMovingTo (destination_file_path : string)
  | EvSuccess (filename new_filename : string)
  | EvWhatIf (filename destination_file_path : string)
  | EvError (filename : string) (e : exn)
  | EvFinished
  | EvProcessedCount (n : nat)
  | EvSkippedCount (n : nat)
  | EvErrorCount (n : nat)
  | EvTotal (n : nat).

Record state : Type := mkState {
  fs : gmap Fs.key node;
  out : list event;            (* standard output, oldest line first *)
  processed_count : nat;
  skipped_count : nat;
  error_count : nat
}.

Inductive outcome (A : Type) : Type :=
  | Done (a : A)
  | Raised (e : exn)
  | Exited         (* [sys.exit(0)]: [SystemExit] is not an [Exception] *)
  | Diverged.      (* a loop ran out of the fuel it was given *)
Arguments Done {A} a.
Arguments Raised {A} e.
Arguments Exited {A}.
Arguments Diverged {A}.

Definition M (A : Type) : Type := state -> state * outcome A.

#[global] Instance M_ret : MRet M := fun A a s => (s, Done a).
#[global] Instance M_bind : MBind M := fun A B f c s =>
  match c s with
  | (s', Done a) => f a s'
  | (s', Raised e) => (s', Raised e)
  | (s', Exited) => (s', Exited)
  | (s', Diverged) => (s', Diverged)
  end.

Definition raise {A} (e : exn) : M A := fun s => (s, Raised e).
Definition sys_exit {A} : M A := fun s => (s, Exited).
Definition diverge {A} : M A := fun s => (s, Diverged).
Definition get : M state := fun s => (s, Done s).
Definition print (ev : event) : M unit := fun s =>
  (mkState (fs s) (out s ++ [ev]) (processed_count s) (skipped_count s)
           (error_count s), Done tt).
Definition incr_processed : M unit := fun s =>
  (mkState (fs s) (out s) (S (processed_count s)) (skipped_count s)
           (error_count s), Done tt).
Definition incr_skipped : M unit := fun s =>
  (mkState (fs s) (out s) (processed_count s) (S (skipped_count s))
           (error_count s), Done tt).
Definition incr_error : M unit := fun s =>
  (mkState (fs s) (out s) (processed_count s) (skipped_count s)
           (S (error_count s)), Done tt).

(** A computation that does not touch the state. *)
Definition pure_outcome {A} (o : outcome A) : M A := fun s => (s, o).

(** A pure computation that may raise. *)
Definition lift {A} (r : result A) : M A :=
  match r with Ok a => mret a | Raise e => raise e end.

(** A file-system call: it updates the tree and may raise. *)
Definition fs_call (op : gmap Fs.key node -> gmap Fs.key node * option exn)
  : M unit := fun s =>
  let '(fs', err) := op (fs s) in
  let s' := mkState fs' (out s) (processed_count s) (skipped_count s)
                    (error_count s) in
  match err with
  | None => (s', Done tt)
  | Some e => (s', Raised e)
  end.

(** [try: body  except Exception as e: handler(e)] *)
Definition try_except {A} (body : M A) (handler : exn -> M A) : M A := fun s =>
  match body s with
  | (s', Raised e) => handler e s'
  | r => r
  end.

(** [for x in xs: body(x)] *)
Fixpoint for_each {A} (xs : list A) (body : A -> M unit) : M unit :=
  match xs with
  | [] => mret tt
  | x :: rest => body x ≫= fun _ => for_each rest body
  end.

(** ** [media-organizer.py] *)

(** An excerpt of [PIL.ExifTags.TAGS]; [TAGS.get(tag, tag)] is the name of
    a listed tag and the number itself otherwise. Tag 36867 is the only
    one named [DateTimeOriginal]. *)
Definition TAGS : list (N * string) :=
  [(271%N, "Make"); (272%N, "Model"); (274%N, "Orientation");
   (306%N, "DateTime"); (36867%N, "DateTimeOriginal");
   (36868%N, "DateTimeDigitized")].

Fixpoint TAGS_lookup (table : list (N * string)) (tag : N) : option string :=
  match table with
  | [] => None
  | (t, name) :: rest => if (t =? tag)%N then Some name else TAGS_lookup rest tag
  end.

Definition TAGS_get (tag : N) : string + N :=
  match TAGS_lookup TAGS tag with
  | Some name => inl name
  | None => inr tag
  end.

Definition is_DateTimeOriginal (tag_name : string + N) : bool :=
  match tag_name with
  | inl name => String.eqb name "DateTimeOriginal"
  | inr _ => false
  end.

(** [datetime.strptime(value, '%Y:%m:%d %H:%M:%S')] on a tag value. *)
Definition strptime_value (value : exif_value) : result datetime :=
  match value with
  | ExifText s => Datetime.strptime s
  | ExifOther => Raise TypeError
  end.

(** The [for tag, value in exif_data.items()] loop: the first tag named
    [DateTimeOriginal] decides. *)
Fixpoint scan_exif (items : exif_dict) : result (option datetime) :=
  match items with
  | [] => Ok None
  | (tag, value) :: rest =>
      let tag_name := TAGS_get tag in
      if is_DateTimeOriginal tag_name then
        match strptime_value value with
        | Ok d => Ok (Some d)
        | Raise e => Raise e
        end
      else scan_exif rest
  end.

(** Truth value of [exif_data]: [None] and the empty dictionary are
    false. *)
Definition exif_truthy (exif_data : option exif_dict) : bool :=
  match exif_data with
  | Some (_ :: _) => true
  | _ => false
  end.

Section Program.
Context (env : environment).

(** The body of the [try] of [get_exif_date]. *)
Definition get_exif_date_try (fs : gmap Fs.key node) (image_path : string)
  : result (option datetime) :=
  match Fs.image_open env fs image_path with
  | Raise e => Raise e
  | Ok img =>
      match getexif img with
      | Raise e => Raise e
      | Ok exif_data =>
          if exif_truthy exif_data
          then scan_exif (default [] exif_data)
          else Ok None
      end
  end.

Definition get_exif_date (fs : gmap Fs.key node) (image_path : string)
  : option datetime :=
  match get_exif_date_try fs image_path with
  | Ok r => r
  | Raise e => None   (* [except Exception: pass], then [return None] *)
  end.

Definition image_extensions : list string :=
  [".jpg"; ".jpeg"; ".png"; ".gif"; ".bmp"; ".tif"; ".tiff"; ".heic"].
Definition video_extensions : list string :=
  [".mp4"; ".mov"; ".avi"; ".wmv"; ".mkv"; ".flv"; ".webm"].
Definition accepted_extensions : list string :=
  image_extensions ++ video_extensions.

Definition get_file_date (fs : gmap Fs.key node) (filepath : string)
  : result datetime :=
  let exif_date :=
    if Py.endswith_any (Py.lower filepath) image_extensions
    then get_exif_date fs filepath
    else None in
  let fallback :=
    match Fs.ctime env fs filepath with
    | Ok d => Ok d
    | Raise e => Fs.mtime env fs filepath
    end in
  match exif_date with
  | Some d => if Datetime.truthy d then Ok d else fallback
  | None => fallback
  end.

Definition month_names : list string :=
  ["01"; "02"; "03"; "04"; "05"; "06"; "07"; "08"; "09"; "10"; "11"; "12"].

(** [l[i]] with Python's negative indices. *)
Definition index (l : list string) (i : Z) : result string :=
  let len := Z.of_nat (List.length l) in
  let j := if (i <? 0)%Z then (i + len)%Z else i in
  if (j <? 0)%Z then Raise IndexError
  else match List.nth_error l (Z.to_nat j) with
       | Some x => Ok x
       | None => Raise IndexError
       end.

(** Lines 107-108: the cleaning of one folder name. *)
Definition clean_part (part : string) : string :=
  let cleaned_part :=
    Py.replace "-" "_" (Py.replace "." "_" (Py.replace " " "_" part)) in
  Py.filter_chars (fun c => Py.isalnum c || Ascii.eqb c "_") cleaned_part.

(** Lines 105-110: the loop that collects the cleaned names. *)
Definition clean_folder_names (folder_name_parts : list string) : list string :=
  fold_left
    (fun cleaned_folder_names part =>
       let cleaned_part := clean_part part in
       if Py.truthy cleaned_part
       then cleaned_folder_names ++ [cleaned_part]
       else cleaned_folder_names)
    folder_name_parts [].

(** Lines 101-115. *)
Definition folder_name_prefix (relative_folder_path : string) : string :=
  let folder_name_parts :=
    if String.eqb relative_folder_path "."
    then []
    else Py.split Posixpath.sep relative_folder_path in
  let cleaned_folder_names := clean_folder_names folder_name_parts in
  match cleaned_folder_names with
  | [] => EmptyString
  | _ => "_" +:+ Py.join "_" cleaned_folder_names
  end.

(** Lines 134-138: the [while os.path.exists(...)] loop, with [fuel]
    turns at most; the answer is the final [new_filename] and
    [destination_file_path]. *)
Fixpoint handle_duplicates (fuel : nat) (exists_ : string -> bool)
    (month_folder_path new_filename_base file_extension : string)
    (counter : N) (new_filename destination_file_path : string)
  : option (string * string) :=
  match fuel with
  | O => None
  | S fuel' =>
      if exists_ destination_file_path then
        let new_filename :=
          new_filename_base +:+ "_" +:+ Py.str counter +:+ file_extension in
        let destination_file_path :=
          Posixpath.join month_folder_path new_filename in
        handle_duplicates fuel' exists_ month_folder_path new_filename_base
          file_extension (counter + 1)%N new_filename destination_file_path
      else Some (new_filename, destination_file_path)
  end.
(** Lines 118-131: the folders and the tentative name. *)
Record placement : Type := mkPlacement {
  year_folder_path : string;
  month_folder_path : string;
  new_filename_base : string;
  tentative_filename : string
}.

Definition place (destination_path filename file_extension : string)
    (determined_date : datetime) (folder_prefix : string)
  : result placement :=
  let year := Datetime.strftime_Y determined_date in
  let month_num := month determined_date in
  match index month_names (Z.of_N month_num - 1) with
  | Raise e => Raise e
  | Ok month_name =>
      let formatted_date_for_file := Datetime.strftime_Y_m_d determined_date in
      let year_folder_path := Posixpath.join destination_path year in
      let month_folder_path :=
        Posixpath.join year_folder_path (year +:+ "_" +:+ month_name) in
      let base_name := fst (Posixpath.splitext filename) in
      let new_filename_base :=
        formatted_date_for_file +:+ folder_prefix +:+ "_" +:+ base_name in
      let new_filename := new_filename_base +:+ file_extension in
      Ok (mkPlacement year_folder_path month_folder_path new_filename_base
                      new_filename)
  end.

(** Lines 99-138: from the date to the free destination name. The
    answer is the placement, the final [new_filename] and the final
    [destination_file_path]. The loop gets one turn more than the tree
    has entries. *)
Definition plan (t : gmap Fs.key node)
    (destination_path normalized_source_path root filename
     file_extension : string) (determined_date : datetime)
  : outcome (placement * string * string) :=
  match Posixpath.relpath (cwd env) root normalized_source_path with
  | Raise e => Raised e
  | Ok relative_folder_path =>
      let prefix := folder_name_prefix relative_folder_path in
      match place destination_path filename file_extension
                  determined_date prefix with
      | Raise e => Raised e
      | Ok pl =>
          match handle_duplicates (S (size t)) (Fs.path_exists env t)
                  (month_folder_path pl) (new_filename_base pl)
                  file_extension 1 (tentative_filename pl)
                  (Posixpath.join (month_folder_path pl)
                                  (tentative_filename pl))
          with
          | None => Diverged
          | Some (new_filename, destination_file_path) =>
              Done (pl, new_filename, destination_file_path)
          end
      end
  end.

(** Lines 92-151: the body of the [try] for one accepted file. *)
Definition process_try (what_if : bool)
    (destination_path normalized_source_path root filename
     file_extension original_filepath : string) : M unit :=
  s ← get;
  determined_date ← lift (get_file_date (fs s) original_filepath);
  if negb (Datetime.truthy determined_date) then
    print (EvWarningNoDate filename) ≫= fun _ => incr_error
  else
    '(pl, new_filename, destination_file_path) ←
      pure_outcome (plan (fs s) destination_path normalized_source_path
                         root filename file_extension determined_date);
    print (EvProcessing filename) ≫= fun _ =>
    print (EvDetectedDate (Datetime.strftime_log determined_date)) ≫= fun _ =>
    print (EvMovingTo destination_file_path) ≫= fun _ =>
    if negb what_if then
      fs_call (fun t => Fs.makedirs env t (year_folder_path pl)) ≫= fun _ =>
      fs_call (fun t => Fs.makedirs env t (month_folder_path pl)) ≫= fun _ =>
      fs_call (fun t => Fs.move env t original_filepath destination_file_path) ≫= fun _ =>
      incr_processed ≫= fun _ =>
      print (EvSuccess filename new_filename)
    else
      print (EvWhatIf filename destination_file_path).

(** Lines 84-155: one turn of the inner [for filename in files]. *)
Definition process_file (what_if : bool)
    (destination_path normalized_source_path root filename : string)
  : M unit :=
  let file_extension := Py.lower (snd (Posixpath.splitext filename)) in
  if negb (existsb (String.eqb file_extension) accepted_extensions) then
    incr_skipped
  else
    let original_filepath := Posixpath.join root filename in
    try_except
      (process_try what_if destination_path normalized_source_path root
                   filename file_extension original_filepath)
      (fun e => print (EvError filename e) ≫= fun _ => incr_error).

(** Lines 157-162. *)
Definition report : M unit :=
  print EvFinished ≫= fun _ =>
  s ← get;
  print (EvProcessedCount (processed_count s)) ≫= fun _ =>
  print (EvSkippedCount (skipped_count s)) ≫= fun _ =>
  (if (0 <? error_count s)%nat then print (EvErrorCount (error_count s))
   else mret tt) ≫= fun _ =>
  print (EvTotal (processed_count s + skipped_count s + error_count s)).

(** [organize_files(source_path, destination_path, what_if)]; [walk] is
    what [os.walk(source_path)] yields: the folders in order, each with
    the names of its files. The counters start at zero. *)
Definition organize_files (source_path destination_path : string)
    (what_if : bool) (walk : list (string * list string)) : M unit :=
  print (EvBanner source_path destination_path) ≫= fun _ =>
  (if what_if then print EvWhatIfMode
   else
     let confirm := Py.lower (answer env) in
     if negb (String.eqb confirm "yes")
     then print EvCancelled ≫= fun _ => sys_exit
     else mret tt) ≫= fun _ =>
  fs_call (fun t => Fs.makedirs env t destination_path) ≫= fun _ =>
  print EvStarting ≫= fun _ =>
  let normalized_source_path := Posixpath.normpath source_path in
  for_each walk (fun '(root, files) =>
    for_each files (fun filename =>
      process_file what_if destination_path normalized_source_path
                   root filename)) ≫= fun _ =>
  report.

(** The state the script starts in: nothing printed, counters at zero. *)
Definition initial (t : gmap Fs.key node) : state := mkState t [] 0 0 0.
End Program.

(** The number of the EXIF tag [DateTimeOriginal]. *)
Definition DateTimeOriginal : N := 36867.

(** The value a dictionary of EXIF tags holds under [tag]. *)
Fixpoint exif_lookup (items : exif_dict) (tag : N) : option exif_value :=
  match items with
  | [] => None
  | (t, v) :: rest => if (t =? tag)%N then Some v else exif_lookup rest tag
  end.

(** Tiers 2 and 3 of the date: the time of creation or status change,
    else the time of the last modification. *)
Definition filesystem_date (env : environment) (fs : gmap Fs.key node)
    (filepath : string) : result datetime :=
  match Fs.ctime env fs filepath with
  | Ok d => Ok d
  | Raise _ => Fs.mtime env fs filepath
  end.

(** A computation that leaves the tree as it found it, whatever its
    outcome. *)
Definition preserves_fs {A} (c : M A) : Prop :=
  forall s, fs (fst (c s)) = fs s.

(** The state after the handler of line 153 has dealt with [e]. *)
Definition reported (s : state) (filename : string) (e : exn) : state :=
  mkState (fs s) (out s ++ [EvError filename e]) (processed_count s)
          (skipped_count s) (S (error_count s)).

(** The three counters, and the number the last line of the report
    gives. *)
Definition counts (s : state) : nat * nat * nat :=
  (processed_count s, skipped_count s, error_count s).
Definition examined (s : state) : nat :=
  processed_count s + skipped_count s + error_count s.

(** [t'] is [t] with directories made: what was there is there, and
    what is new is a new directory. *)
Definition grows (env : environment) (t t' : gmap Fs.key node) : Prop :=
  t ⊆ t'
  /\ forall k n, t' !! k = Some n -> t !! k = Some n \/ n = Fs.dir_node env.

(** The state after [print]ing some lines. *)
Definition printed (s : state) (lines : list event) : state :=
  mkState (fs s) (out s ++ lines) (processed_count s) (skipped_count s)
          (error_count s).


(** ** A standard output that can refuse a line

    [print] writes to [sys.stdout], and the write can raise:
    [UnicodeEncodeError] for a file name that the encoding of the
    terminal does not have, an [OSError] for a pipe that was closed.
    [stdout ev] is what writing the line [ev] raises, if anything. The
    definitions of this module are lines 84-162 again, with this [print];
    for a standard output that takes every line they are the ones
    above. *)

Module Console.

(** [s.isascii()] *)
Fixpoint isascii (s : string) : bool :=
  match s with
  | EmptyString => true
  | String c r => (N_of_ascii c <? 128)%N && isascii r
  end.

(** The texts that the program puts into a line; the text of an exception
    is taken to be plain. *)
Definition texts (ev : event) : list string :=
  match ev with
  | EvBanner source_path destination_path => [source_path; destination_path]
  | EvWarningNoDate filename => [filename]
  | EvProcessing filename => [filename]
  | EvDetectedDate text => [text]
  | EvMovingTo destination_file_path => [destination_file_path]
  | EvSuccess filename new_filename => [filename; new_filename]
  | EvWhatIf filename destination_file_path =>
      [filename; destination_file_path]
  | EvError filename e => [filename]
  | _ => []
  end.

(** A standard output whose encoding is ASCII, with strict errors. *)
Definition ascii_only (ev : event) : option exn :=
  if forallb isascii (texts ev) then None else Some UnicodeEncodeError.

Section Program.
Context (env : environment) (stdout : event -> option exn).

Definition print (ev : event) : M unit := fun s =>
  match stdout ev with
  | Some e => (s, Raised e)
  | None =>
      (mkState (fs s) (out s ++ [ev]) (processed_count s) (skipped_count s)
               (error_count s), Done tt)
  end.

(** Lines 92-151. *)
Definition process_try (what_if : bool)
    (destination_path normalized_source_path root filename
     file_extension original_filepath : string) : M unit :=
  s ← get;
  determined_date ← lift (get_file_date env (fs s) original_filepath);
  if negb (Datetime.truthy determined_date) then
    print (EvWarningNoDate filename) ≫= fun _ => incr_error
  else
    '(pl, new_filename, destination_file_path) ←
      pure_outcome (plan env (fs s) destination_path normalized_source_path
                         root filename file_extension determined_date);
    print (EvProcessing filename) ≫= fun _ =>
    print (EvDetectedDate (Datetime.strftime_log determined_date)) ≫= fun _ =>
    print (EvMovingTo destination_file_path) ≫= fun _ =>
    if negb what_if then
      fs_call (fun t => Fs.makedirs env t (year_folder_path pl)) ≫= fun _ =>
      fs_call (fun t => Fs.makedirs env t (month_folder_path pl)) ≫= fun _ =>
      fs_call (fun t => Fs.move env t original_filepath destination_file_path) ≫= fun _ =>
      incr_processed ≫= fun _ =>
      print (EvSuccess filename new_filename)
    else
      print (EvWhatIf filename destination_file_path).

(** Lines 84-155. *)
Definition process_file (what_if : bool)
    (destination_path normalized_source_path root filename : string)
  : M unit :=
  let file_extension := Py.lower (snd (Posixpath.splitext filename)) in
  if negb (existsb (String.eqb file_extension) accepted_extensions) then
    incr_skipped
  else
    let original_filepath := Posixpath.join root filename in
    try_except
      (process_try what_if destination_path normalized_source_path root
                   filename file_extension original_filepath)
      (fun e => print (EvError filename e) ≫= fun _ => incr_error).

(** Lines 157-162. *)
Definition report : M unit :=
  print EvFinished ≫= fun _ =>
  s ← get;
  print (EvProcessedCount (processed_count s)) ≫= fun _ =>
  print (EvSkippedCount (skipped_count s)) ≫= fun _ =>
  (if (0 <? error_count s)%nat then print (EvErrorCount (error_count s))
   else mret tt) ≫= fun _ =>
  print (EvTotal (processed_count s + skipped_count s + error_count s)).

(** Lines 63-162. *)
Definition organize_files (source_path destination_path : string)
    (what_if : bool) (walk : list (string * list string)) : M unit :=
  print (EvBanner source_path destination_path) ≫= fun _ =>
  (if what_if then print EvWhatIfMode
   else
     let confirm := Py.lower (answer env) in
     if negb (String.eqb confirm "yes")
     then print EvCancelled ≫= fun _ => sys_exit
     else mret tt) ≫= fun _ =>
  fs_call (fun t => Fs.makedirs env t destination_path) ≫= fun _ =>
  print EvStarting ≫= fun _ =>
  let normalized_source_path := Posixpath.normpath source_path in
  for_each walk (fun '(root, files) =>
    for_each files (fun filename =>
      process_file what_if destination_path normalized_source_path
                   root filename)) ≫= fun _ =>
  report.
End Program.

End Console.


(** ** The prompts of the script (lines 178-200)

    When an option is missing the script asks for the path, line by line
    until an answer will do. [inputs] are the lines the user types; when
    they run out, [input()] raises [EOFError] and the script dies: the
    answer is [None] then. The lines that [print] writes meanwhile are
    collected. *)

Module Main.

Inductive notice : Type :=
  | SourceNotFound             (* Source directory not found. ... *)
  | DestinationNotADirectory   (* Destination path exists but is not ... *)
  | ProvideDestination.        (* Please provide an existing or valid ... *)

Section Prompts.
Context (env : environment) (t : gmap Fs.key node).

(** [os.path.isdir(p)] and [os.path.exists(p)] on what was typed: the
    empty path names nothing. *)
Definition isdir (p : string) : bool := Py.truthy p && Fs.isdir env t p.
Definition exists_ (p : string) : bool :=
  Py.truthy p && Fs.path_exists env t p.

(** Lines 179-184: the answer and the lines not yet read. *)
Fixpoint ask_source (inputs : list string)
  : list notice * option (string * list string) :=
  match inputs with
  | [] => ([], None)
  | source_path :: rest =>
      if isdir source_path then ([], Some (source_path, rest))
      else
        let '(notices, answer) := ask_source rest in
        (SourceNotFound :: notices, answer)
  end.

End Prompts.

(** Lines 187-200, over what [os.path.exists] and [os.path.isdir] answer
    for a path. The two are asked of the operating system, which follows
    links and refuses the name of a file followed by a separator; the
    loop only looks at their answers. *)
Section Destination.
Context (path_exists path_isdir : string -> bool).

Fixpoint ask_destination (inputs : list string)
  : list notice * option (string * list string) :=
  match inputs with
  | [] => ([], None)
  | destination_path :: rest =>
      if path_exists destination_path && negb (path_isdir destination_path)
      then
        let '(notices, answer) := ask_destination rest in
        (DestinationNotADirectory :: notices, answer)
      else if path_isdir destination_path then
        ([], Some (destination_path, rest))
      else
        match rest with
        | [] => ([], None)
        | line :: rest' =>
            let create_confirm := Py.lower line in
            if String.eqb create_confirm "yes"
            then ([], Some (destination_path, rest'))
            else
              let '(notices, answer) := ask_destination rest' in
              (ProvideDestination :: notices, answer)
        end
  end.
End Destination.

End Main.

(** ** The folder prefix as the specification words it *)

Module Spec.

(** Space, period and hyphen become an underscore. *)
Definition underscore (c : ascii) : ascii :=
  if Ascii.eqb c " " || Ascii.eqb c "." || Ascii.eqb c "-" then "_"%char else c.

Fixpoint map_chars (f : ascii -> ascii) (s : string) : string :=
  match s with
  | EmptyString => EmptyString
  | String c r => String (f c) (map_chars f r)
  end.

Definition keep (c : ascii) : bool := Py.isalnum c || Ascii.eqb c "_".

(** One segment: replace, then delete what is neither alphanumeric nor an
    underscore. *)
Definition clean_segment (seg : string) : string :=
  Py.filter_chars keep (map_chars underscore seg).

(** The cleaned segments that are not empty. *)
Definition survivors (relative_folder : string) : list string :=
  List.filter Py.truthy
    (List.map clean_segment (Py.split Posixpath.sep relative_folder)).

(** Joined with underscores behind one leading underscore; empty when no
    segment survives. *)
Definition folder_prefix (relative_folder : string) : string :=
  match survivors relative_folder with
  | [] => EmptyString
  | segs => "_" +:+ Py.join "_" segs
  end.

(** The [k]-th candidate of the collision resolution: the tentative name
    for [k = 0], then [{datedBaseName}_{k}{extension}]. *)
Definition candidate (dated_base_name extension : string) (k : nat) : string :=
  match k with
  | O => dated_base_name +:+ extension
  | S _ => dated_base_name +:+ "_" +:+ Py.str (N.of_nat k) +:+ extension
  end.

(** All characters of [s] satisfy [p]. *)
Fixpoint all_chars (p : ascii -> bool) (s : string) : bool :=
  match s with
  | EmptyString => true
  | String c r => p c && all_chars p r
  end.

(** The ways in which the file at [filepath] gives no date of its own:
    there is no such file, or [Image.open] raises on it, or reading its
    EXIF block raises, or it has no block, or the block has no
    [DateTimeOriginal], or the value under that tag is not the text of a
    date that [strptime] accepts. *)
Inductive metadata_miss (env : environment) (fs : gmap Fs.key node)
    (filepath : string) : Prop :=
  | miss_no_file :
      Fs.lookup_path env fs filepath = None ->
      metadata_miss env fs filepath
  | miss_open_error (n : node) (e : exn) :
      Fs.lookup_path env fs filepath = Some n ->
      n_open n = Raise e ->
      metadata_miss env fs filepath
  | miss_read_error (n : node) (img : image) (e : exn) :
      Fs.lookup_path env fs filepath = Some n ->
      n_open n = Ok img ->
      getexif img = Raise e ->
      metadata_miss env fs filepath
  | miss_no_block (n : node) (img : image) :
      Fs.lookup_path env fs filepath = Some n ->
      n_open n = Ok img ->
      getexif img = Ok None ->
      metadata_miss env fs filepath
  | miss_no_tag (n : node) (img : image) (items : exif_dict) :
      Fs.lookup_path env fs filepath = Some n ->
      n_open n = Ok img ->
      getexif img = Ok (Some items) ->
      exif_lookup items DateTimeOriginal = None ->
      metadata_miss env fs filepath
  | miss_bad_value (n : node) (img : image) (items : exif_dict)
        (value : exif_value) (e : exn) :
      Fs.lookup_path env fs filepath = Some n ->
      n_open n = Ok img ->
      getexif img = Ok (Some items) ->
      exif_lookup items DateTimeOriginal = Some value ->
      strptime_value value = Raise e ->
      metadata_miss env fs filepath.

(** What the [k]-th candidate puts behind the dated base name. *)
Definition suffix (extension : string) (k : nat) : string :=
  match k with
  | O => extension
  | S _ => "_" +:+ Py.str (N.of_nat k) +:+ extension
  end.

End Spec.

(** ** A small world for the examples *)

Module Example.

Definition env : environment :=
  mkEnv "/home/user" (mkDatetime 2024 1 1 0 0 0 0) "yes".

Definition taken : datetime := mkDatetime 2022 7 4 10 0 0 0.
Definition created : datetime := mkDatetime 2023 1 2 3 4 5 6.
Definition modified : datetime := mkDatetime 2021 12 31 23 59 58 0.

(** A JPEG whose EXIF block holds [DateTimeOriginal]. *)
Definition photo (text : string) : node :=
  mkNode false
    (Ok (mkImage (Ok (Some [(271%N, ExifText "Camera");
                            (36867%N, ExifText text)]))))
    (Ok created) (Ok modified).

(** A video: [Image.open] does not recognise it. *)
Definition video : node :=
  mkNode false (Raise UnidentifiedImageError) (Ok created) (Ok modified).

Definition dir : node := Fs.dir_node env.

(** [/src/Vacation/beach.JPG], nothing at [/out]. *)
Definition tree : gmap Fs.key node :=
  <[ ["src"; "Vacation"; "beach.JPG"] := photo "2022:07:04 10:00:00" ]>
  (<[ ["src"; "Vacation"] := dir ]> (<[ ["src"] := dir ]> ∅)).

Definition walk : list (string * list string) :=
  [("/src", []); ("/src/Vacation", ["beach.JPG"])].

(** The same with a video [/src/clip.MOV]. *)
Definition clip_tree : gmap Fs.key node :=
  <[ ["src"; "clip.MOV"] := video ]> tree.

(** The same environment with a user who declines. *)
Definition env_no : environment :=
  mkEnv "/home/user" (mkDatetime 2024 1 1 0 0 0 0) "No".

(** A scanned picture: its EXIF block has the tag [DateTime] of the
    scanning software, and no [DateTimeOriginal]. *)
Definition scan : node :=
  mkNode false
    (Ok (mkImage (Ok (Some [(306%N, ExifText "2020:01:01 00:00:00")]))))
    (Ok created) (Ok modified).

Definition scan_tree : gmap Fs.key node :=
  <[ ["src"; "scan.png"] := scan ]> tree.

(** A photograph whose camera adds the time zone to the date. *)
Definition zoned_tree : gmap Fs.key node :=
  <[ ["src"; "zoned.jpg"] := photo "2022:07:04 10:00:00+02:00" ]> tree.

(** A picture that [Image.open] does not recognise. *)
Definition broken_tree : gmap Fs.key node :=
  <[ ["src"; "broken.jpg"] := video ]> tree.

(** A picture without EXIF block whose time of creation cannot be
    read. *)
Definition bare : node :=
  mkNode false (Ok (mkImage (Ok None))) (Raise OSError) (Ok modified).

Definition bare_tree : gmap Fs.key node :=
  <[ ["src"; "bare.png"] := bare ]> tree.

(** A destination that already holds the photograph of the example
    twice: under the name it would get and under the name with [_1]. *)
Definition crowded_tree : gmap Fs.key node :=
  <[ ["out"; "2022"; "2022_07"; "2022_07_04_Vacation_beach_1.jpg"]
     := photo "2022:07:04 10:00:00" ]>
  (<[ ["out"; "2022"; "2022_07"; "2022_07_04_Vacation_beach.jpg"]
      := photo "2022:07:04 10:00:00" ]>
   (<[ ["out"; "2022"; "2022_07"] := dir ]>
    (<[ ["out"; "2022"] := dir ]> (<[ ["out"] := dir ]> tree)))).

(** The tree of the example with another file under the name of the
    photograph: the same entries, another content. *)
Definition retouched_tree : gmap Fs.key node :=
  <[ ["src"; "Vacation"; "beach.JPG"] := video ]> tree.

(** The folder of the example with a second photograph of the same day
    whose name differs in the case of the extension only. *)
Definition twin_tree : gmap Fs.key node :=
  <[ ["src"; "Vacation"; "beach.jpg"] := photo "2022:07:04 10:00:00" ]> tree.

(** A file that may not be read in any way. *)
Definition locked : node :=
  mkNode false (Raise PermissionError) (Raise PermissionError)
         (Raise PermissionError).

Definition locked_tree : gmap Fs.key node :=
  <[ ["src"; "locked.mp4"] := locked ]> tree.

(** A video that may not be read, beside the folder of the example. Its
    name is [cafe.mp4] with an acute accent on the [e]: the character
    number 233, which ASCII does not have. *)
Definition cafe : string := "caf" +:+ String "233"%char ".mp4".

Definition cafe_tree : gmap Fs.key node :=
  <[ ["src"; cafe] := locked ]> tree.

Definition cafe_walk : list (string * list string) :=
  [("/src", [cafe]); ("/src/Vacation", ["beach.JPG"])].

End Example.

(** * Properties *)

(** ** The folder prefix (lines 101-115) *)

Lemma replace_thrice (s : string) :
  Py.replace "-" "_" (Py.replace "." "_" (Py.replace " " "_" s))
  = Spec.map_chars Spec.underscore s.
Proof.
  induction s as [|c r IH]; [reflexivity|].
  cbn [Py.replace Spec.map_chars]. rewrite IH. f_equal.
  unfold Spec.underscore.
  destruct (Ascii.eqb_spec c " ") as [->|]; [reflexivity|].
  destruct (Ascii.eqb_spec c ".") as [->|]; [reflexivity|].
  destruct (Ascii.eqb_spec c "-") as [->|]; reflexivity.
Qed.

Lemma clean_part_spec (part : string) :
  clean_part part = Spec.clean_segment part.
Proof. unfold clean_part, Spec.clean_segment. now rewrite replace_thrice. Qed.

Lemma clean_folder_names_acc (parts acc : list string) :
  fold_left
    (fun cleaned part =>
       let c := clean_part part in
       if Py.truthy c then cleaned ++ [c] else cleaned) parts acc
  = acc ++ List.filter Py.truthy (List.map Spec.clean_segment parts).
Proof.
  revert acc. induction parts as [|p ps IH]; intros acc; cbn.
  - now rewrite app_nil_r.
  - rewrite IH, clean_part_spec.
    destruct (Py.truthy (Spec.clean_segment p)); [|reflexivity].
    now rewrite <- app_assoc.
Qed.

Lemma clean_folder_names_spec (parts : list string) :
  clean_folder_names parts
  = List.filter Py.truthy (List.map Spec.clean_segment parts).
Proof. unfold clean_folder_names. now rewrite clean_folder_names_acc. Qed.

(** C2, as amended. For every relative source folder other than ["."] the
    prefix is the one obtained by splitting into segments, replacing each
    space, period and hyphen by an underscore, deleting every character
    that is neither alphanumeric nor an underscore, dropping the segments
    that become empty and, when a segment survives, joining the survivors
    with underscores behind one leading underscore; the prefix is empty
    when none survives and for the folder ["."]. Runs of replaced
    characters are not merged: ["Family Trip - 2024/Day.1"] gives
    [_Family_Trip___2024_Day_1]. *)
Theorem C2_folder_prefix :
  (forall relative_folder_path : string,
      folder_name_prefix relative_folder_path
      = if String.eqb relative_folder_path "." then EmptyString
        else Spec.folder_prefix relative_folder_path)
  /\ folder_name_prefix "Family Trip - 2024/Day.1" = "_Family_Trip___2024_Day_1".
Proof.
  split; [|reflexivity].
  intros rel. unfold folder_name_prefix, Spec.folder_prefix, Spec.survivors.
  destruct (String.eqb rel "."); [reflexivity|].
  rewrite clean_folder_names_spec.
  destruct (List.filter _ _); reflexivity.
Qed.

(** C2, as stated, fails on its own example: the code does not produce
    [_Family_Trip_2024_Day_1]. *)
Lemma C2_counterexample :
  folder_name_prefix "Family Trip - 2024/Day.1" <> "_Family_Trip_2024_Day_1".
Proof. intros H. vm_compute in H. discriminate H. Qed.


(** ** Collision resolution (lines 133-138) *)

Section Collision.
Context (exists_ : string -> bool).
Context (month_folder_path new_filename_base file_extension : string).

Local Abbreviation cand k :=
  (Spec.candidate new_filename_base file_extension k).
Local Abbreviation path k := (Posixpath.join month_folder_path (cand k)).

(** The loop entered with candidate [j] in hand and the counter at
    [j + 1]: if the next [m] candidates exist and the one after does not,
    it stops there. *)
Lemma handle_duplicates_from (m : nat) :
  forall (j fuel : nat),
    (forall k, j <= k < j + m -> exists_ (path k) = true) ->
    exists_ (path (j + m)) = false ->
    m < fuel ->
    handle_duplicates fuel exists_ month_folder_path new_filename_base
      file_extension (N.of_nat (S j)) (cand j) (path j)
    = Some (cand (j + m), path (j + m)).
Proof.
  induction m as [|m IH]; intros j fuel Hex Hfree Hfuel.
  - destruct fuel as [|fuel]; [lia|]. cbn [handle_duplicates].
    rewrite Nat.add_0_r in Hfree. rewrite Hfree. now rewrite Nat.add_0_r.
  - destruct fuel as [|fuel]; [lia|]. cbn [handle_duplicates].
    rewrite (Hex j) by lia.
    replace (N.of_nat (S j) + 1)%N with (N.of_nat (S (S j))) by lia.
    replace (j + S m) with (S j + m) in * by lia.
    change (new_filename_base +:+ "_" +:+ Py.str (N.of_nat (S j))
            +:+ file_extension) with (cand (S j)).
    change (Posixpath.join month_folder_path (cand (S j))) with (path (S j)).
    apply IH; [|assumption|lia].
    intros k Hk. apply Hex. lia.
Qed.
End Collision.

(** C3. Collision resolution starts from the tentative file name
    [{datedBaseName}{extension}]; while the existence predicate holds of
    the current candidate the next one is
    [{datedBaseName}_{counter}{extension}], the counter starting at 1 and
    growing by 1; the first candidate that does not exist is returned
    (here: when candidates [0 .. n-1] exist and candidate [n] does not, the
    loop returns candidate [n], given more than [n] turns). *)
Theorem C3_collision_resolution
    (exists_ : string -> bool)
    (month_folder_path new_filename_base file_extension : string)
    (n fuel : nat) :
  (forall k, k < n ->
     exists_ (Posixpath.join month_folder_path
                (Spec.candidate new_filename_base file_extension k)) = true) ->
  exists_ (Posixpath.join month_folder_path
             (Spec.candidate new_filename_base file_extension n)) = false ->
  n < fuel ->
  handle_duplicates fuel exists_ month_folder_path new_filename_base
    file_extension 1
    (new_filename_base +:+ file_extension)
    (Posixpath.join month_folder_path (new_filename_base +:+ file_extension))
  = Some (Spec.candidate new_filename_base file_extension n,
          Posixpath.join month_folder_path
            (Spec.candidate new_filename_base file_extension n)).
Proof.
  intros Hex Hfree Hfuel.
  apply (handle_duplicates_from exists_ month_folder_path new_filename_base
           file_extension n 0 fuel); [|assumption|assumption].
  intros k Hk. apply Hex. lia.
Qed.

(** The instance of the specification: the predicate holds exactly of
    [2024_05_12_IMG_0001.jpg] and of its [_1] variant, and the answer is
    the [_2] variant. *)
Lemma C3_witness :
  handle_duplicates 3
    (fun p => String.eqb p "/out/2024/2024_05/2024_05_12_IMG_0001.jpg"
              || String.eqb p "/out/2024/2024_05/2024_05_12_IMG_0001_1.jpg")
    "/out/2024/2024_05" "2024_05_12_IMG_0001" ".jpg" 1
    "2024_05_12_IMG_0001.jpg" "/out/2024/2024_05/2024_05_12_IMG_0001.jpg"
  = Some ("2024_05_12_IMG_0001_2.jpg",
          "/out/2024/2024_05/2024_05_12_IMG_0001_2.jpg").
Proof.
  apply (C3_collision_resolution
           (fun p => String.eqb p "/out/2024/2024_05/2024_05_12_IMG_0001.jpg"
                     || String.eqb p "/out/2024/2024_05/2024_05_12_IMG_0001_1.jpg")
           "/out/2024/2024_05" "2024_05_12_IMG_0001" ".jpg" 2 3).
  - intros k Hk. destruct k as [|[|k]]; [reflexivity|reflexivity|lia].
  - reflexivity.
  - lia.
Defined.

(** ** Planning one file (lines 84-138) *)

Section CollisionShape.
Context (exists_ : string -> bool).
Context (month_folder_path new_filename_base file_extension : string).

Local Abbreviation cand k :=
  (Spec.candidate new_filename_base file_extension k).
Local Abbreviation path k := (Posixpath.join month_folder_path (cand k)).

(** Whatever the loop returns is a candidate that does not exist, and the
    candidates tried before it all exist. *)
Lemma handle_duplicates_inv (fuel : nat) :
  forall (j : nat) (new_filename destination_file_path : string),
    handle_duplicates fuel exists_ month_folder_path new_filename_base
      file_extension (N.of_nat (S j)) (cand j) (path j)
    = Some (new_filename, destination_file_path) ->
    exists k, j <= k /\ new_filename = cand k
              /\ destination_file_path = path k
              /\ exists_ (path k) = false
              /\ forall i, j <= i < k -> exists_ (path i) = true.
Proof.
  induction fuel as [|fuel IH]; intros j nf dfp H; [discriminate H|].
  cbn [handle_duplicates] in H.
  destruct (exists_ (path j)) eqn:Hj.
  - replace (N.of_nat (S j) + 1)%N with (N.of_nat (S (S j))) in H by lia.
    change (new_filename_base +:+ "_" +:+ Py.str (N.of_nat (S j))
            +:+ file_extension) with (cand (S j)) in H.
    change (Posixpath.join month_folder_path (cand (S j)))
      with (path (S j)) in H.
    destruct (IH _ _ _ H) as (k & Hk & -> & -> & Hfree & Hex).
    exists k. repeat split; [lia|assumption|].
    intros i Hi. destruct (Nat.eq_dec i j) as [->|]; [assumption|].
    apply Hex. lia.
  - injection H as <- <-. exists j. repeat split; [lia|assumption|].
    intros i Hi. lia.
Qed.
End CollisionShape.

(** What [plan] answers: the folders and the base name of lines 118-128,
    and a name that is one of the candidates of the collision loop. *)
Lemma plan_shape (env : environment) (t : gmap Fs.key node)
    (destination_path normalized_source_path root filename
     file_extension : string) (determined_date : datetime)
    (pl : placement) (new_filename destination_file_path : string) :
  plan env t destination_path normalized_source_path root filename
       file_extension determined_date
  = Done (pl, new_filename, destination_file_path) ->
  exists relative_folder_path k,
    Posixpath.relpath (cwd env) root normalized_source_path
    = Ok relative_folder_path
    /\ place destination_path filename file_extension determined_date
             (folder_name_prefix relative_folder_path) = Ok pl
    /\ new_filename = Spec.candidate (new_filename_base pl) file_extension k
    /\ destination_file_path
       = Posixpath.join (month_folder_path pl) new_filename
    /\ Fs.path_exists env t destination_file_path = false
    /\ (forall i, i < k ->
          Fs.path_exists env t
            (Posixpath.join (month_folder_path pl)
               (Spec.candidate (new_filename_base pl) file_extension i))
          = true).
Proof.
  unfold plan. intros H.
  destruct (Posixpath.relpath _ _ _) as [rel|e]; [|discriminate H].
  destruct (place _ _ _ _ _) as [pl'|e] eqn:Hplace; [|discriminate H].
  destruct (handle_duplicates _ _ _ _ _ _ _ _) as [[nf dfp]|] eqn:Hloop;
    [|discriminate H].
  injection H as -> -> ->.
  assert (Htent : tentative_filename pl
                  = Spec.candidate (new_filename_base pl) file_extension 0).
  { unfold place in Hplace. destruct (index _ _); [|discriminate Hplace].
    injection Hplace as <-. reflexivity. }
  rewrite Htent in Hloop.
  apply (handle_duplicates_inv _ _ _ _ _ 0) in Hloop.
  destruct Hloop as (k & _ & -> & -> & Hfree & Hex).
  exists rel, k. repeat split; try assumption; try reflexivity.
  intros i Hi. apply Hex. lia.
Qed.

(** One accepted file in what-if mode, when its date is found and the
    plan is made: four lines are printed and nothing else changes. *)
Lemma process_file_what_if (env : environment) (s : state)
    (destination_path normalized_source_path root filename : string)
    (determined_date : datetime) (pl : placement)
    (new_filename destination_file_path : string) :
  let file_extension := Py.lower (snd (Posixpath.splitext filename)) in
  existsb (String.eqb file_extension) accepted_extensions = true ->
  get_file_date env (fs s) (Posixpath.join root filename)
  = Ok determined_date ->
  plan env (fs s) destination_path normalized_source_path root filename
       file_extension determined_date
  = Done (pl, new_filename, destination_file_path) ->
  process_file env true destination_path normalized_source_path root
               filename s
  = (printed s [EvProcessing filename;
                EvDetectedDate (Datetime.strftime_log determined_date);
                EvMovingTo destination_file_path;
                EvWhatIf filename destination_file_path],
     Done tt).
Proof.
  intros ext Hacc Hdate Hplan. unfold process_file. fold ext.
  rewrite Hacc. cbn [negb].
  unfold try_except, process_try, mbind, M_bind, get, lift, pure_outcome.
  rewrite Hdate. cbn. rewrite Hplan. cbn.
  unfold printed. destruct s; cbn. repeat rewrite <- app_assoc. reflexivity.
Qed.

(** C1, as amended. An accepted file is one whose extension, lowercased,
    is in the allowlist, and the extension appended to the planned file
    name is that lowercased extension, not the original spelling: in
    what-if mode the program reports the destination
    [month folder / candidate], where the candidate is the dated base name
    [{YYYY_MM_DD}{prefix}_{base}] followed by the lowercased extension
    (with [_{k}] in between after [k] collisions). Planning
    [Vacation/beach.JPG], taken 2022:07:04 10:00:00, into [/out] gives the
    directory [/out/2022/2022_07] and the name
    [2022_07_04_Vacation_beach.jpg]. *)
Theorem C1_extension_lowercased :
  (forall (env : environment) (s : state)
          (destination_path normalized_source_path root filename : string)
          (determined_date : datetime) (pl : placement)
          (new_filename destination_file_path : string),
      existsb (String.eqb (Py.lower (snd (Posixpath.splitext filename))))
              accepted_extensions = true ->
      get_file_date env (fs s) (Posixpath.join root filename)
      = Ok determined_date ->
      plan env (fs s) destination_path normalized_source_path root filename
           (Py.lower (snd (Posixpath.splitext filename))) determined_date
      = Done (pl, new_filename, destination_file_path) ->
      process_file env true destination_path normalized_source_path root
                   filename s
      = (printed s [EvProcessing filename;
                    EvDetectedDate (Datetime.strftime_log determined_date);
                    EvMovingTo destination_file_path;
                    EvWhatIf filename destination_file_path],
         Done tt)
      /\ exists relative_folder_path k,
           Posixpath.relpath (cwd env) root normalized_source_path
           = Ok relative_folder_path
           /\ new_filename_base pl
              = Datetime.strftime_Y_m_d determined_date
                +:+ folder_name_prefix relative_folder_path
                +:+ "_" +:+ fst (Posixpath.splitext filename)
           /\ new_filename
              = Spec.candidate (new_filename_base pl)
                  (Py.lower (snd (Posixpath.splitext filename))) k
           /\ destination_file_path
              = Posixpath.join (month_folder_path pl) new_filename)
  /\ plan Example.env Example.tree "/out" "/src" "/src/Vacation" "beach.JPG"
          (Py.lower (snd (Posixpath.splitext "beach.JPG"))) Example.taken
     = Done (mkPlacement "/out/2022" "/out/2022/2022_07"
                         "2022_07_04_Vacation_beach"
                         "2022_07_04_Vacation_beach.jpg",
             "2022_07_04_Vacation_beach.jpg",
             "/out/2022/2022_07/2022_07_04_Vacation_beach.jpg")
  /\ out (fst (organize_files Example.env "/src" "/out" true Example.walk
                 (initial Example.tree)))
     = [EvBanner "/src" "/out"; EvWhatIfMode; EvStarting;
        EvProcessing "beach.JPG";
        EvDetectedDate "2022-07-04 10:00:00";
        EvMovingTo "/out/2022/2022_07/2022_07_04_Vacation_beach.jpg";
        EvWhatIf "beach.JPG" "/out/2022/2022_07/2022_07_04_Vacation_beach.jpg";
        EvFinished; EvProcessedCount 0; EvSkippedCount 0; EvTotal 0].
Proof.
  split; [|split; vm_compute; reflexivity].
  intros env s dst nsp root filename d pl nf dfp Hacc Hdate Hplan.
  split; [now apply (process_file_what_if _ _ _ _ _ _ _ pl nf dfp)|].
  destruct (plan_shape _ _ _ _ _ _ _ _ _ _ _ Hplan)
    as (rel & k & Hrel & Hplace & Hnf & Hdfp & _).
  exists rel, k. repeat split; try assumption.
  unfold place in Hplace. destruct (index _ _); [|discriminate Hplace].
  injection Hplace as <-. reflexivity.
Qed.

(** The general part at the example: [beach.JPG] is accepted, its date is
    the embedded one, and the dry run reports the lowercased name. *)
Lemma C1_witness :
  process_file Example.env true "/out" "/src" "/src/Vacation" "beach.JPG"
               (initial Example.tree)
  = (printed (initial Example.tree)
       [EvProcessing "beach.JPG";
        EvDetectedDate (Datetime.strftime_log Example.taken);
        EvMovingTo "/out/2022/2022_07/2022_07_04_Vacation_beach.jpg";
        EvWhatIf "beach.JPG" "/out/2022/2022_07/2022_07_04_Vacation_beach.jpg"],
     Done tt).
Proof.
  apply (proj1 C1_extension_lowercased Example.env (initial Example.tree)
           "/out" "/src" "/src/Vacation" "beach.JPG" Example.taken
           (mkPlacement "/out/2022" "/out/2022/2022_07"
                        "2022_07_04_Vacation_beach"
                        "2022_07_04_Vacation_beach.jpg")
           "2022_07_04_Vacation_beach.jpg"
           "/out/2022/2022_07/2022_07_04_Vacation_beach.jpg").
  - vm_compute. reflexivity.
  - vm_compute. reflexivity.
  - vm_compute. reflexivity.
Defined.

(** C1, as stated, fails on its own example: the planned name of
    [Vacation/beach.JPG] is not [2022_07_04_Vacation_beach.JPG], neither
    in the plan nor in what the dry run reports. *)
Lemma C1_counterexample :
  (forall (pl : placement) (destination_file_path : string),
      plan Example.env Example.tree "/out" "/src" "/src/Vacation" "beach.JPG"
           (Py.lower (snd (Posixpath.splitext "beach.JPG"))) Example.taken
      <> Done (pl, "2022_07_04_Vacation_beach.JPG", destination_file_path))
  /\ ~ In (EvWhatIf "beach.JPG"
                    "/out/2022/2022_07/2022_07_04_Vacation_beach.JPG")
          (out (fst (organize_files Example.env "/src" "/out" true
                       Example.walk (initial Example.tree)))).
Proof.
  split.
  - intros pl dfp H. vm_compute in H. discriminate H.
  - vm_compute. intuition discriminate.
Qed.

(** ** What-if mode (lines 60-76 and 144-151) *)

Lemma preserves_ret {A} (a : A) : preserves_fs (mret a : M A).
Proof. intros s. reflexivity. Qed.

Lemma preserves_raise {A} (e : exn) : preserves_fs (raise e : M A).
Proof. intros s. reflexivity. Qed.

Lemma preserves_sys_exit {A} : preserves_fs (sys_exit : M A).
Proof. intros s. reflexivity. Qed.

Lemma preserves_get : preserves_fs get.
Proof. intros s. reflexivity. Qed.

Lemma preserves_print (ev : event) : preserves_fs (print ev).
Proof. intros s. reflexivity. Qed.

Lemma preserves_incr_processed : preserves_fs incr_processed.
Proof. intros s. reflexivity. Qed.

Lemma preserves_incr_skipped : preserves_fs incr_skipped.
Proof. intros s. reflexivity. Qed.

Lemma preserves_incr_error : preserves_fs incr_error.
Proof. intros s. reflexivity. Qed.

Lemma preserves_pure_outcome {A} (o : outcome A) :
  preserves_fs (pure_outcome o).
Proof. intros s. reflexivity. Qed.

Lemma preserves_lift {A} (r : result A) : preserves_fs (lift r).
Proof. intros s. destruct r; reflexivity. Qed.

Lemma preserves_bind {A B} (c : M A) (f : A -> M B) :
  preserves_fs c -> (forall a, preserves_fs (f a)) -> preserves_fs (c ≫= f).
Proof.
  intros Hc Hf s. unfold mbind, M_bind. specialize (Hc s).
  destruct (c s) as [s' [a|e| |]]; cbn in *; try assumption.
  now rewrite Hf.
Qed.

Lemma preserves_try_except {A} (body : M A) (handler : exn -> M A) :
  preserves_fs body -> (forall e, preserves_fs (handler e)) ->
  preserves_fs (try_except body handler).
Proof.
  intros Hb Hh s. unfold try_except. specialize (Hb s).
  destruct (body s) as [s' [a|e| |]]; cbn in *; try assumption.
  now rewrite Hh.
Qed.

Lemma preserves_for_each {A} (xs : list A) (body : A -> M unit) :
  (forall x, preserves_fs (body x)) -> preserves_fs (for_each xs body).
Proof.
  intros Hb. induction xs as [|x xs IH]; cbn [for_each].
  - apply preserves_ret.
  - apply preserves_bind; [apply Hb|]. intros _. exact IH.
Qed.

Create HintDb preserves.

#[local] Hint Resolve preserves_ret preserves_raise preserves_sys_exit
  preserves_get preserves_print preserves_incr_processed
  preserves_incr_skipped preserves_incr_error preserves_pure_outcome
  preserves_lift : preserves.

Ltac preserves :=
  repeat first
    [ apply preserves_bind; [|intros ?]
    | apply preserves_try_except; [|intros ?]
    | apply preserves_for_each; intros ?
    | solve [auto with preserves] ].

(** In what-if mode the turn for one file leaves the tree alone. *)
Lemma process_file_what_if_preserves (env : environment)
    (destination_path normalized_source_path root filename : string) :
  preserves_fs
    (process_file env true destination_path normalized_source_path root
                  filename).
Proof.
  unfold process_file.
  destruct (negb _); [auto with preserves|].
  unfold process_try.
  apply preserves_try_except; [|intros e; preserves].
  apply preserves_bind; [apply preserves_get|intros s0].
  apply preserves_bind; [apply preserves_lift|intros d].
  destruct (negb (Datetime.truthy d)); [preserves|].
  apply preserves_bind; [apply preserves_pure_outcome|].
  intros [[pl nf] dfp]. cbn [negb]. preserves.
Qed.

Lemma report_preserves : preserves_fs report.
Proof.
  unfold report. preserves. destruct (_ <? _)%nat; auto with preserves.
Qed.

(** The whole dry run changes the tree only by line 76. *)
Lemma organize_files_what_if_fs (env : environment)
    (source_path destination_path : string)
    (walk : list (string * list string)) (s : state) :
  fs (fst (organize_files env source_path destination_path true walk s))
  = fst (Fs.makedirs env (fs s) destination_path).
Proof.
  unfold organize_files.
  unfold mbind at 1 2 3, M_bind at 1 2 3. cbn [print fs out].
  unfold fs_call at 1. cbn [fs].
  destruct (Fs.makedirs env (fs s) destination_path) as [t' [e|]]; cbn [fst];
    [reflexivity|].
  match goal with
  | |- fs (fst (?c ?s0)) = _ =>
      assert (H : preserves_fs c); [|exact (H s0)]
  end.
  apply preserves_bind; [apply preserves_print|intros _].
  apply preserves_bind; [|intros _; apply report_preserves].
  apply preserves_for_each. intros [root files].
  apply preserves_for_each. intros filename.
  apply process_file_what_if_preserves.
Qed.

(** C6. The dry run is announced as making no change, yet it creates the
    destination root: over the example tree, which has nothing at [/out],
    the run in what-if mode prints the banner of the mode and leaves a
    directory at [/out]. In general the tree after a dry run is the tree
    after [os.makedirs(destination_path, exist_ok=True)] (line 76), and
    nothing else is changed. *)
Theorem C6_dry_run_creates_destination :
  (forall (env : environment) (source_path destination_path : string)
          (walk : list (string * list string)) (s : state),
      fs (fst (organize_files env source_path destination_path true walk s))
      = fst (Fs.makedirs env (fs s) destination_path))
  /\ Fs.path_exists Example.env Example.tree "/out" = false
  /\ Fs.isdir Example.env
       (fs (fst (organize_files Example.env "/src" "/out" true Example.walk
                   (initial Example.tree)))) "/out" = true
  /\ fs (fst (organize_files Example.env "/src" "/out" true Example.walk
                (initial Example.tree)))
     <> Example.tree
  /\ snd (organize_files Example.env "/src" "/out" true Example.walk
            (initial Example.tree)) = Done tt.
Proof.
  split; [exact organize_files_what_if_fs|].
  split; [vm_compute; reflexivity|].
  split; [vm_compute; reflexivity|].
  split; [|vm_compute; reflexivity].
  intros H.
  assert (Hd : Fs.isdir Example.env
                 (fs (fst (organize_files Example.env "/src" "/out" true
                             Example.walk (initial Example.tree)))) "/out"
               = Fs.isdir Example.env Example.tree "/out") by now rewrite H.
  vm_compute in Hd. discriminate Hd.
Qed.

(** ** The date of a file (lines 8-44) *)

(** A property of all numbers below a bound, from its instances. *)
Lemma N_lt_cases (n : nat) (P : N -> Prop) :
  Forall P (List.map N.of_nat (seq 0 n)) ->
  forall v, (v < N.of_nat n)%N -> P v.
Proof.
  intros H v Hv. rewrite List.Forall_forall in H. apply H.
  apply in_map_iff. exists (N.to_nat v).
  split; [lia|]. apply in_seq. lia.
Qed.

Ltac each_number tac :=
  cbn [List.map seq];
  repeat (apply List.Forall_cons; [tac|]); apply List.Forall_nil.

Ltac first_alternative :=
  let H := fresh in
  intros ? ? ? H; vm_compute in H; vm_compute; rewrite H; reflexivity.

Section Groups.
Context {R : Type}.
Implicit Types (cont : string -> string -> option R) (r : string) (x : R).

Lemma match_alt_app (a : list Datetime.cls) :
  forall s m rest r,
    Datetime.match_alt a s = Some (m, rest) ->
    Datetime.match_alt a (s +:+ r) = Some (m, rest +:+ r).
Proof.
  induction a as [|c a IH]; intros s m rest r H;
    cbn [Datetime.match_alt] in *.
  - now injection H as <- <-.
  - destruct s as [|x s]; [discriminate H|].
    change (String x s +:+ r) with (String x (s +:+ r)).
    cbn [Datetime.match_alt].
    destruct (Datetime.in_cls c x); [|discriminate H].
    destruct (Datetime.match_alt a s) as [[m' rest']|] eqn:E; [|discriminate H].
    injection H as <- <-. rewrite (IH _ _ _ r E). reflexivity.
Qed.

Lemma year_digits (y : N) :
  (y < 10000)%N ->
  Datetime.match_alt [Datetime.D; Datetime.D; Datetime.D; Datetime.D]
    (Datetime.zfill 4 (Py.str y))
  = Some (Datetime.zfill 4 (Py.str y), EmptyString)
  /\ Datetime.int (Datetime.zfill 4 (Py.str y)) = y.
Proof.
  intros Hy.
  assert (Hall : forallb
            (fun n =>
               let s := Datetime.zfill 4 (Py.str (N.of_nat n)) in
               match Datetime.match_alt
                       [Datetime.D; Datetime.D; Datetime.D; Datetime.D] s with
               | Some (m, rest) =>
                   String.eqb m s && String.eqb rest EmptyString
                   && (Datetime.int s =? N.of_nat n)%N
               | None => false
               end) (seq 0 (N.to_nat 10000)) = true) by (vm_compute; reflexivity).
  rewrite forallb_forall in Hall.
  specialize (Hall (N.to_nat y)). rewrite N2Nat.id in Hall.
  cbv zeta in Hall.
  destruct (Datetime.match_alt _ _) as [[m rest]|].
  - assert (Hin : In (N.to_nat y) (seq 0 (N.to_nat 10000))) by (apply in_seq; lia).
    apply Hall in Hin.
    apply andb_true_iff in Hin as [Hin Hint].
    apply andb_true_iff in Hin as [Hm Hrest].
    apply String.eqb_eq in Hm, Hrest. apply N.eqb_eq in Hint.
    subst. now split.
  - assert (Hin : In (N.to_nat y) (seq 0 (N.to_nat 10000))) by (apply in_seq; lia).
    apply Hall in Hin. discriminate Hin.
Qed.

Lemma group_Y (y : N) cont r x :
  (y < 10000)%N ->
  cont (Datetime.zfill 4 (Py.str y)) r = Some x ->
  Datetime.try_alts Datetime.re_Y (Datetime.zfill 4 (Py.str y) +:+ r) cont
  = Some x.
Proof.
  intros Hy H. destruct (year_digits y Hy) as [Hm _].
  unfold Datetime.re_Y. cbn [Datetime.try_alts].
  rewrite (match_alt_app _ _ _ _ r Hm).
  change (EmptyString +:+ r) with r. now rewrite H.
Qed.

Lemma group_m (v : N) :
  (v < 13)%N -> (1 <= v)%N ->
  forall cont r x,
    cont (Datetime.zfill 2 (Py.str v)) r = Some x ->
    Datetime.try_alts Datetime.re_m (Datetime.zfill 2 (Py.str v) +:+ r) cont
    = Some x.
Proof.
  revert v. refine (N_lt_cases 13 _ _). each_number
    ltac:(intros Hv; solve [lia | first_alternative]).
Qed.

Lemma group_d (v : N) :
  (v < 32)%N -> (1 <= v)%N ->
  forall cont r x,
    cont (Datetime.zfill 2 (Py.str v)) r = Some x ->
    Datetime.try_alts Datetime.re_d (Datetime.zfill 2 (Py.str v) +:+ r) cont
    = Some x.
Proof.
  revert v. refine (N_lt_cases 32 _ _). each_number
    ltac:(intros Hv; solve [lia | first_alternative]).
Qed.

Lemma group_H (v : N) :
  (v < 24)%N ->
  forall cont r x,
    cont (Datetime.zfill 2 (Py.str v)) r = Some x ->
    Datetime.try_alts Datetime.re_H (Datetime.zfill 2 (Py.str v) +:+ r) cont
    = Some x.
Proof.
  revert v. refine (N_lt_cases 24 _ _). each_number first_alternative.
Qed.

Lemma group_M (v : N) :
  (v < 60)%N ->
  forall cont r x,
    cont (Datetime.zfill 2 (Py.str v)) r = Some x ->
    Datetime.try_alts Datetime.re_M (Datetime.zfill 2 (Py.str v) +:+ r) cont
    = Some x.
Proof.
  revert v. refine (N_lt_cases 60 _ _). each_number first_alternative.
Qed.

Lemma group_S (v : N) :
  (v < 60)%N ->
  forall cont r x,
    cont (Datetime.zfill 2 (Py.str v)) r = Some x ->
    Datetime.try_alts Datetime.re_S (Datetime.zfill 2 (Py.str v) +:+ r) cont
    = Some x.
Proof.
  revert v. refine (N_lt_cases 60 _ _). each_number first_alternative.
Qed.
End Groups.

Lemma int_two_digits (v : N) :
  (v < 100)%N -> Datetime.int (Datetime.zfill 2 (Py.str v)) = v.
Proof.
  intros Hv.
  assert (Hall : forallb
            (fun n => (Datetime.int (Datetime.zfill 2 (Py.str (N.of_nat n)))
                       =? N.of_nat n)%N) (seq 0 100) = true)
    by (vm_compute; reflexivity).
  rewrite forallb_forall in Hall.
  specialize (Hall (N.to_nat v)). rewrite N2Nat.id in Hall.
  apply N.eqb_eq, Hall, in_seq. lia.
Qed.

Lemma days_in_month_le (y m : N) : (Datetime.days_in_month y m <= 31)%N.
Proof.
  unfold Datetime.days_in_month.
  repeat match goal with |- context [if ?b then _ else _] => destruct b end;
    lia.
Qed.

Lemma valid_bounds (d : datetime) :
  Datetime.valid d = true ->
  (1 <= year d < 10000 /\ 1 <= month d < 13 /\ 1 <= day d < 32
   /\ hour d < 24 /\ minute d < 60 /\ second d < 60)%N.
Proof.
  unfold Datetime.valid, Py.between. intros H.
  repeat match goal with
         | H : _ && _ = true |- _ => apply andb_true_iff in H as [? ?]
         end.
  pose proof (days_in_month_le (year d) (month d)).
  repeat match goal with
         | H : (_ <=? _)%N = true |- _ => apply N.leb_le in H
         | H : (_ <? _)%N = true |- _ => apply N.ltb_lt in H
         end.
  lia.
Qed.

Lemma items_directive (alts : list (list Datetime.cls))
    (its : list Datetime.item) (g r : string) (ms : list string) (e : string) :
  (forall (cont : string -> string -> option (list string * string)) x,
      cont g r = Some x -> Datetime.try_alts alts (g +:+ r) cont = Some x) ->
  Datetime.match_items its r = Some (ms, e) ->
  Datetime.match_items (Datetime.Directive alts :: its) (g +:+ r)
  = Some (g :: ms, e).
Proof.
  intros Halts Hrest. cbn [Datetime.match_items].
  apply Halts. now rewrite Hrest.
Qed.

Lemma items_literal (c : ascii) (its : list Datetime.item) (r : string) :
  Datetime.match_items (Datetime.Literal c :: its) (String c r)
  = Datetime.match_items its r.
Proof. cbn [Datetime.match_items]. now rewrite Ascii.eqb_refl. Qed.

(** The blank before the hour is all the white space there is. *)
Lemma items_whitespace (v : N) :
  (v < 24)%N ->
  forall (its : list Datetime.item) (r : string),
    Datetime.match_items (Datetime.Whitespace :: its)
      (" " +:+ Datetime.zfill 2 (Py.str v) +:+ r)
    = Datetime.match_items its (Datetime.zfill 2 (Py.str v) +:+ r).
Proof.
  revert v. refine (N_lt_cases 24 _ _).
  each_number ltac:(intros; reflexivity).
Qed.

Lemma append_empty (s : string) : s +:+ EmptyString = s.
Proof.
  induction s as [|c s IH]; [reflexivity|].
  change (String c s +:+ EmptyString) with (String c (s +:+ EmptyString)).
  now rewrite IH.
Qed.

(** The expression of the format matches the text an EXIF writer stores
    for a date, group by group. *)
Lemma match_items_exif_text (d : datetime) :
  Datetime.valid d = true ->
  Datetime.match_items Datetime.format_items (Datetime.exif_text d)
  = Some ([Datetime.exif_Y d; Datetime.fmt_m d; Datetime.fmt_d d;
           Datetime.fmt_H d; Datetime.fmt_M d; Datetime.fmt_S d],
          EmptyString).
Proof.
  intros Hv. apply valid_bounds in Hv.
  destruct Hv as (HY & Hm & Hd & HH & HM & HS).
  unfold Datetime.exif_text, Datetime.format_items.
  rewrite <- (append_empty (Datetime.fmt_S d)) at 1.
  apply items_directive; [intros; apply group_Y; [lia|assumption]|].
  change (":" +:+ ?s) with (String ":" s). rewrite items_literal.
  apply items_directive; [intros; apply group_m; [lia|lia|assumption]|].
  change (":" +:+ ?s) with (String ":" s). rewrite items_literal.
  apply items_directive; [intros; apply group_d; [lia|lia|assumption]|].
  unfold Datetime.fmt_H at 1. rewrite items_whitespace by lia.
  apply items_directive; [intros; apply group_H; [lia|assumption]|].
  change (":" +:+ ?s) with (String ":" s). rewrite items_literal.
  apply items_directive; [intros; apply group_M; [lia|assumption]|].
  change (":" +:+ ?s) with (String ":" s). rewrite items_literal.
  apply items_directive; [intros; apply group_S; [lia|assumption]|].
  reflexivity.
Qed.

(** [strptime] reads back what was written for a valid date without
    microseconds. *)
Lemma strptime_exif_text (d : datetime) :
  Datetime.valid d = true -> microsecond d = 0%N ->
  Datetime.strptime (Datetime.exif_text d) = Ok d.
Proof.
  intros Hv Hus. unfold Datetime.strptime.
  rewrite (match_items_exif_text d Hv). cbn [Py.truthy].
  pose proof (valid_bounds d Hv) as (HY & Hm & Hd & HH & HM & HS).
  unfold Datetime.exif_Y, Datetime.fmt_m, Datetime.fmt_d,
    Datetime.fmt_H, Datetime.fmt_M, Datetime.fmt_S.
  rewrite (proj2 (year_digits (year d) ltac:(lia))).
  rewrite !int_two_digits by lia.
  destruct d as [Y m dd H M S us]. cbn in Hus. subst us. cbn [year month day hour minute second] in *.
  now rewrite Hv.
Qed.

(** Only the tag 36867 bears the name [DateTimeOriginal]. *)
Lemma is_DateTimeOriginal_tag (tag : N) :
  is_DateTimeOriginal (TAGS_get tag) = (tag =? DateTimeOriginal)%N.
Proof.
  unfold TAGS_get, TAGS, DateTimeOriginal. cbn [TAGS_lookup].
  repeat match goal with
         | |- context [(?t =? tag)%N] =>
             destruct (N.eqb_spec t tag) as [<-|]; [reflexivity|]
         end.
  symmetry. apply N.eqb_neq. congruence.
Qed.

(** The loop over the tags finds the value of [DateTimeOriginal] and
    parses it. *)
Lemma scan_exif_lookup (items : exif_dict) :
  scan_exif items
  = match exif_lookup items DateTimeOriginal with
    | Some value =>
        match strptime_value value with
        | Ok d => Ok (Some d)
        | Raise e => Raise e
        end
    | None => Ok None
    end.
Proof.
  induction items as [|[tag value] items IH]; [reflexivity|].
  cbn [scan_exif exif_lookup]. rewrite is_DateTimeOriginal_tag, IH.
  destruct (tag =? DateTimeOriginal)%N; reflexivity.
Qed.

(** A name with the extension of a video does not end like an image. *)
Lemma video_not_image (filepath : string) :
  Py.endswith_any (Py.lower filepath) video_extensions = true ->
  Py.endswith_any (Py.lower filepath) image_extensions = false.
Proof.
  unfold Py.endswith_any, Py.endswith, video_extensions, image_extensions.
  generalize (Py.rev (Py.lower filepath)) as rs. intros rs.
  destruct rs as [|c rs]; [intros H; discriminate H|].
  cbn [existsb Py.rev Py.rev_acc Py.startswith].
  destruct (Ascii.eqb_spec "4" c) as [<-|]; [reflexivity|].
  destruct (Ascii.eqb_spec "v" c) as [<-|]; [reflexivity|].
  destruct (Ascii.eqb_spec "i" c) as [<-|]; [reflexivity|].
  destruct (Ascii.eqb_spec "m" c) as [<-|]; [reflexivity|].
  intros H. discriminate H.
Qed.

(** The metadata of a file that gives no date gives [None], and the date
    is that of the file system. *)
Lemma metadata_miss_fallback (env : environment) (fs : gmap Fs.key node)
    (filepath : string) :
  Spec.metadata_miss env fs filepath ->
  get_exif_date env fs filepath = None
  /\ get_file_date env fs filepath = filesystem_date env fs filepath.
Proof.
  intros Hmiss.
  assert (Hnone : get_exif_date env fs filepath = None).
  { unfold get_exif_date, get_exif_date_try, Fs.image_open.
    destruct Hmiss as [Hn|n e Hn Hopen|n img e Hn Hopen Hexif
                      |n img Hn Hopen Hexif|n img items Hn Hopen Hexif Htag
                      |n img items value e Hn Hopen Hexif Htag Hvalue];
      rewrite Hn; [reflexivity|rewrite Hopen; reflexivity|..];
      rewrite Hopen, Hexif; [reflexivity|reflexivity|..];
      (destruct (exif_truthy (Some items)); [|reflexivity]);
      change (default [] (Some items)) with items;
      rewrite scan_exif_lookup, Htag; [reflexivity|].
    now rewrite Hvalue. }
  split; [exact Hnone|].
  unfold get_file_date, filesystem_date. rewrite Hnone.
  destruct (Py.endswith_any _ _); reflexivity.
Qed.

(** C4. For an image file whose EXIF block holds under
    [DateTimeOriginal] the text [YYYY:MM:DD HH:MM:SS] of a date, the
    resolver returns that date whatever the time stamps of the file are
    (they may even be unreadable); and when the file gives no such date
    (it cannot be opened, its EXIF block cannot be read or is missing,
    the tag is missing, or its value is not a date [strptime] accepts)
    nothing is raised by the metadata tier: it yields [None] and the
    resolver answers as the file system tiers do. *)
Theorem C4_exif_date_first (env : environment) (fs : gmap Fs.key node)
    (filepath : string) :
  (forall (n : node) (img : image) (items : exif_dict) (d : datetime),
      Py.endswith_any (Py.lower filepath) image_extensions = true ->
      Fs.lookup_path env fs filepath = Some n ->
      n_open n = Ok img ->
      getexif img = Ok (Some items) ->
      exif_lookup items DateTimeOriginal
      = Some (ExifText (Datetime.exif_text d)) ->
      Datetime.valid d = true -> microsecond d = 0%N ->
      get_file_date env fs filepath = Ok d)
  /\ (Spec.metadata_miss env fs filepath ->
      get_exif_date env fs filepath = None
      /\ get_file_date env fs filepath = filesystem_date env fs filepath).
Proof.
  split.
  - intros n img items d Himg Hn Hopen Hexif Htag Hvalid Hus.
    unfold get_file_date. rewrite Himg.
    unfold get_exif_date, get_exif_date_try, Fs.image_open.
    rewrite Hn, Hopen, Hexif.
    assert (Htruthy : exif_truthy (Some items) = true).
    { destruct items; [discriminate Htag|reflexivity]. }
    rewrite Htruthy. change (default [] (Some items)) with items.
    rewrite scan_exif_lookup, Htag.
    cbn [strptime_value]. rewrite (strptime_exif_text d Hvalid Hus).
    reflexivity.
  - apply metadata_miss_fallback.
Qed.

(** The photograph of the example: its date is the one in its EXIF
    block, not the time stamps of the file. And a picture that cannot be
    opened: nothing is raised, its date is the time of its creation. *)
Lemma C4_witness :
  get_file_date Example.env Example.tree "/src/Vacation/beach.JPG"
  = Ok Example.taken
  /\ (get_exif_date Example.env Example.broken_tree "/src/broken.jpg" = None
      /\ get_file_date Example.env Example.broken_tree "/src/broken.jpg"
         = filesystem_date Example.env Example.broken_tree "/src/broken.jpg").
Proof.
  split.
  - apply (proj1 (C4_exif_date_first Example.env Example.tree
                    "/src/Vacation/beach.JPG")
             (Example.photo "2022:07:04 10:00:00")
             (mkImage (Ok (Some [(271%N, ExifText "Camera");
                                 (36867%N,
                                  ExifText "2022:07:04 10:00:00")])))
             [(271%N, ExifText "Camera");
              (36867%N, ExifText "2022:07:04 10:00:00")]
             Example.taken).
    + vm_compute. reflexivity.
    + vm_compute. reflexivity.
    + reflexivity.
    + reflexivity.
    + vm_compute. reflexivity.
    + vm_compute. reflexivity.
    + reflexivity.
  - apply (proj2 (C4_exif_date_first Example.env Example.broken_tree
                    "/src/broken.jpg")).
    apply (Spec.miss_open_error Example.env Example.broken_tree
             "/src/broken.jpg" Example.video UnidentifiedImageError).
    + vm_compute. reflexivity.
    + reflexivity.
Defined.

(** C8. For a video file, and for an image file whose metadata is
    missing or cannot be read (the file cannot be opened, its EXIF block
    cannot be read or is missing, the tag is missing or holds no date),
    the resolver answers with the time of creation or status change when
    that can be read, else with the time of the last modification; for a
    video the metadata is not looked at. *)
Theorem C8_filesystem_fallback (env : environment) (fs : gmap Fs.key node)
    (filepath : string) :
  Py.endswith_any (Py.lower filepath) video_extensions = true
  \/ Spec.metadata_miss env fs filepath ->
  get_file_date env fs filepath
  = match Fs.ctime env fs filepath with
    | Ok d => Ok d
    | Raise _ => Fs.mtime env fs filepath
    end.
Proof.
  intros [Hvideo|Hmiss].
  - unfold get_file_date. now rewrite (video_not_image _ Hvideo).
  - exact (proj2 (metadata_miss_fallback env fs filepath Hmiss)).
Qed.

(** A picture without EXIF block whose time of creation cannot be read:
    its date is the time of its last modification. *)
Lemma C8_witness :
  get_file_date Example.env Example.bare_tree "/src/bare.png"
  = Ok Example.modified.
Proof.
  etransitivity.
  - apply (C8_filesystem_fallback Example.env Example.bare_tree
             "/src/bare.png").
    right.
    apply (Spec.miss_no_block Example.env Example.bare_tree "/src/bare.png"
             Example.bare (mkImage (Ok None))).
    + vm_compute. reflexivity.
    + reflexivity.
    + reflexivity.
  - vm_compute. reflexivity.
Defined.

(** ** A file without a date (lines 36-44 and 153-155) *)

(** Whatever the body of the [try] raises, the handler reports it and
    the turn ends normally. *)
Lemma process_file_raised (env : environment) (what_if : bool)
    (destination_path normalized_source_path root filename : string)
    (s s' : state) (e : exn) :
  existsb (String.eqb (Py.lower (snd (Posixpath.splitext filename))))
          accepted_extensions = true ->
  process_try env what_if destination_path normalized_source_path root
    filename (Py.lower (snd (Posixpath.splitext filename)))
    (Posixpath.join root filename) s = (s', Raised e) ->
  process_file env what_if destination_path normalized_source_path root
    filename s = (reported s' filename e, Done tt).
Proof.
  intros Hacc Hbody. unfold process_file. rewrite Hacc. cbn [negb].
  unfold try_except. rewrite Hbody. reflexivity.
Qed.

(** The line that says that no date could be determined (lines 94-97)
    is never printed: whatever the turn for a file does, that line is in
    the output only if it was there before. *)
Lemma process_file_never_warns (env : environment) (what_if : bool)
    (destination_path normalized_source_path root filename : string)
    (s : state) (name : string) :
  In (EvWarningNoDate name)
     (out (fst (process_file env what_if destination_path
                  normalized_source_path root filename s))) ->
  In (EvWarningNoDate name) (out s).
Proof.
  unfold process_file.
  destruct (negb _); [trivial|].
  unfold try_except, process_try, mbind, M_bind, get, lift, fs_call.
  destruct (get_file_date env (fs s) (Posixpath.join root filename))
    as [determined_date|e]; cbn.
  2:{ rewrite in_app_iff. cbn. intuition discriminate. }
  destruct (plan env (fs s) destination_path normalized_source_path root
              filename _ determined_date)
    as [[[pl new_filename] destination_file_path]|e| |]; cbn;
    [|rewrite in_app_iff; cbn; intuition discriminate|trivial|trivial].
  destruct what_if; cbn.
  { rewrite !in_app_iff. cbn. intuition discriminate. }
  destruct (Fs.makedirs env (fs s) (year_folder_path pl)) as [t1 [e|]]; cbn.
  { rewrite !in_app_iff. cbn. intuition discriminate. }
  destruct (Fs.makedirs env t1 (month_folder_path pl)) as [t2 [e|]]; cbn.
  { rewrite !in_app_iff. cbn. intuition discriminate. }
  destruct (Fs.move env t2 (Posixpath.join root filename)
              destination_file_path) as [t3 [e|]]; cbn;
    rewrite !in_app_iff; cbn; intuition discriminate.
Qed.

(** C5. The code has a branch of its own for a file without a date
    (lines 94-97: a warning, the error counter, the next file), taken
    when [get_file_date] returns nothing; but [get_file_date] never
    returns nothing. When the metadata tier yields no date and both the
    read of the creation or status-change time and the read of the
    modification time fail, it raises the exception of the
    modification-time read (line 44), and the caller catches that with
    the handler it has for every exception of the turn (line 153): the
    file is reported as an error like any other, and the warning of
    lines 94-97 is never printed. No date is made up and no move is
    planned. *)
Theorem C5_date_failure (env : environment) (what_if : bool)
    (destination_path normalized_source_path root filename : string)
    (s : state) :
  existsb (String.eqb (Py.lower (snd (Posixpath.splitext filename))))
          accepted_extensions = true ->
  (forall e1 e2 : exn,
      Py.endswith_any (Py.lower (Posixpath.join root filename))
                      image_extensions = false
      \/ Spec.metadata_miss env (fs s) (Posixpath.join root filename) ->
      Fs.ctime env (fs s) (Posixpath.join root filename) = Raise e1 ->
      Fs.mtime env (fs s) (Posixpath.join root filename) = Raise e2 ->
      get_file_date env (fs s) (Posixpath.join root filename) = Raise e2
      /\ process_file env what_if destination_path normalized_source_path
           root filename s
         = (reported s filename e2, Done tt))
  /\ (forall (s' : state) (e : exn),
        process_try env what_if destination_path normalized_source_path
          root filename (Py.lower (snd (Posixpath.splitext filename)))
          (Posixpath.join root filename) s = (s', Raised e) ->
        process_file env what_if destination_path normalized_source_path
          root filename s = (reported s' filename e, Done tt))
  /\ (forall name : string,
        In (EvWarningNoDate name)
           (out (fst (process_file env what_if destination_path
                        normalized_source_path root filename s))) ->
        In (EvWarningNoDate name) (out s)).
Proof.
  intros Hacc. split; [|split].
  - intros e1 e2 Hexif Hc Hm.
    assert (Hdate : get_file_date env (fs s) (Posixpath.join root filename)
                    = Raise e2).
    { destruct Hexif as [Hext | Hmiss].
      - unfold get_file_date. now rewrite Hext, Hc, Hm.
      - rewrite (proj2 (metadata_miss_fallback _ _ _ Hmiss)).
        unfold filesystem_date. now rewrite Hc, Hm. }
    split; [exact Hdate|].
    apply process_file_raised; [exact Hacc|].
    unfold process_try, mbind, M_bind, get, lift. rewrite Hdate. reflexivity.
  - intros s' e Hbody. now apply process_file_raised.
  - apply process_file_never_warns.
Qed.

(** A listed video that is gone when its turn comes: both reads raise
    [FileNotFoundError], and that is the error reported. *)
Lemma C5_witness :
  get_file_date Example.env Example.tree "/src/gone.mp4"
  = Raise FileNotFoundError
  /\ process_file Example.env false "/out" "/src" "/src" "gone.mp4"
       (initial Example.tree)
     = (reported (initial Example.tree) "gone.mp4" FileNotFoundError,
        Done tt).
Proof.
  apply (proj1 (C5_date_failure Example.env false "/out" "/src" "/src"
                  "gone.mp4" (initial Example.tree) eq_refl)
           FileNotFoundError FileNotFoundError).
  - left. vm_compute. reflexivity.
  - vm_compute. reflexivity.
  - vm_compute. reflexivity.
Defined.

(** No error of its own: what the resolver raises when both reads fail
    is the exception of the read. For a file that is gone it is
    [FileNotFoundError], for one that may not be read
    [PermissionError]. *)
Lemma date_failure_has_no_error_of_its_own :
  ~ exists date_unavailable : exn,
      forall (env : environment) (fs : gmap Fs.key node) (filepath : string)
             (e1 e2 : exn),
        Fs.ctime env fs filepath = Raise e1 ->
        Fs.mtime env fs filepath = Raise e2 ->
        get_file_date env fs filepath = Raise date_unavailable.
Proof.
  intros [date_unavailable H].
  pose proof (H Example.env Example.tree "/src/gone.mp4"
                FileNotFoundError FileNotFoundError eq_refl eq_refl) as H1.
  pose proof (H Example.env Example.locked_tree "/src/locked.mp4"
                PermissionError PermissionError eq_refl eq_refl) as H2.
  vm_compute in H1. vm_compute in H2. congruence.
Qed.

(** ** The collision loop ends (lines 133-138) *)

Section Strings.
Implicit Types (s t u : string) (c : ascii).

Lemma append_cons c s t : String c s +:+ t = String c (s +:+ t).
Proof. reflexivity. Qed.

Lemma append_assoc s t u : (s +:+ t) +:+ u = s +:+ (t +:+ u).
Proof.
  induction s as [|c s IH]; [reflexivity|].
  rewrite !append_cons. now rewrite IH.
Qed.

Lemma length_append s t :
  String.length (s +:+ t) = String.length s + String.length t.
Proof.
  induction s as [|c s IH]; [reflexivity|].
  rewrite append_cons. cbn [String.length]. now rewrite IH.
Qed.

Lemma append_inv_head s t u : s +:+ t = s +:+ u -> t = u.
Proof.
  induction s as [|c s IH]; [trivial|].
  rewrite !append_cons. intros H. injection H as H. auto.
Qed.

Lemma append_inv_tail s t u : s +:+ u = t +:+ u -> s = t.
Proof.
  revert t. induction s as [|c s IH]; intros [|d t] H.
  - reflexivity.
  - apply (f_equal String.length) in H.
    rewrite !length_append in H. cbn [String.length] in H. lia.
  - apply (f_equal String.length) in H.
    rewrite !length_append in H. cbn [String.length] in H. lia.
  - rewrite !append_cons in H. injection H as -> H. f_equal. auto.
Qed.

Lemma contains_append c s t :
  Py.contains c (s +:+ t) = Py.contains c s || Py.contains c t.
Proof.
  induction s as [|d s IH]; [reflexivity|].
  rewrite append_cons. cbn [Py.contains]. rewrite IH. now rewrite orb_assoc.
Qed.

Lemma startswith_append s u :
  Py.contains Posixpath.sep u = false ->
  Py.startswith (s +:+ u) Posixpath.sep_s = Py.startswith s Posixpath.sep_s.
Proof.
  intros Hu. unfold Posixpath.sep_s.
  destruct s as [|c s].
  2:{ rewrite append_cons. cbn [Py.startswith].
      destruct (Ascii.eqb _ _); [|reflexivity].
      now destruct s, u. }
  change (EmptyString +:+ u) with u.
  destruct u as [|d u]; [reflexivity|].
  cbn [Py.contains] in Hu. apply orb_false_iff in Hu as [Hd _].
  cbn [Py.startswith]. unfold Posixpath.sep in Hd. now rewrite Hd.
Qed.

(** A text without the separator is one piece. *)
Lemma split_one u :
  Py.contains Posixpath.sep u = false -> Py.split Posixpath.sep u = [u].
Proof.
  induction u as [|c u IH]; [reflexivity|].
  cbn [Py.contains Py.split]. intros H.
  apply orb_false_iff in H as [Hc Hu].
  rewrite Ascii.eqb_sym, Hc. now rewrite (IH Hu).
Qed.

(** Appending such a text extends the last piece. *)
Lemma split_append s :
  exists (pieces : list string) (piece : string),
    forall u, Py.contains Posixpath.sep u = false ->
              Py.split Posixpath.sep (s +:+ u) = pieces ++ [piece +:+ u].
Proof.
  induction s as [|c s (pieces & piece & IH)].
  - exists [], EmptyString. intros u Hu. now apply split_one.
  - destruct (Ascii.eqb c Posixpath.sep) eqn:Hc.
    + exists (EmptyString :: pieces), piece. intros u Hu.
      rewrite append_cons. cbn [Py.split]. rewrite Hc.
      now rewrite (IH u Hu).
    + destruct pieces as [|p ps].
      * exists [], (String c piece). intros u Hu.
        rewrite append_cons. cbn [Py.split]. rewrite Hc.
        now rewrite (IH u Hu).
      * exists (String c p :: ps), piece. intros u Hu.
        rewrite append_cons. cbn [Py.split]. rewrite Hc.
        now rewrite (IH u Hu).
Qed.

(** [os.path.join] with a name that is extended at its end. *)
Lemma join_append (a b : string) :
  exists w, forall u,
    Py.contains Posixpath.sep u = false ->
    Posixpath.join a (b +:+ u) = w +:+ u.
Proof.
  unfold Posixpath.join.
  destruct (Py.startswith b Posixpath.sep_s) eqn:Hb.
  - exists b. intros u Hu. now rewrite startswith_append, Hb.
  - destruct (negb (Py.truthy a) || Py.endswith a Posixpath.sep_s).
    + exists (a +:+ b). intros u Hu.
      now rewrite startswith_append, Hb, append_assoc.
    + exists (a +:+ Posixpath.sep_s +:+ b). intros u Hu.
      now rewrite startswith_append, Hb, !append_assoc.
Qed.
End Strings.

Lemma to_uint_nonnil (n : N) : N.to_uint n <> Decimal.Nil.
Proof.
  destruct n as [|p]; [discriminate|].
  apply DecimalPos.Unsigned.to_uint_nonnil.
Qed.

Lemma str_inj (m n : N) : Py.str m = Py.str n -> m = n.
Proof.
  unfold Py.str. intros H.
  apply DecimalN.Unsigned.to_uint_inj.
  pose proof (NilZero.usu _ (to_uint_nonnil m)) as Hm.
  pose proof (NilZero.usu _ (to_uint_nonnil n)) as Hn.
  rewrite H in Hm. congruence.
Qed.

(** The decimal digits hold no separator. *)
Lemma digits_no_sep (d : Decimal.uint) :
  Py.contains Posixpath.sep (NilEmpty.string_of_uint d) = false.
Proof. induction d; cbn; auto. Qed.

Lemma str_no_sep (n : N) : Py.contains Posixpath.sep (Py.str n) = false.
Proof.
  unfold Py.str, NilZero.string_of_uint.
  destruct (N.to_uint n); try apply digits_no_sep. reflexivity.
Qed.

(** The accepted extensions: no separator, four characters at least. *)
Lemma accepted_extension_shape (file_extension : string) :
  existsb (String.eqb file_extension) accepted_extensions = true ->
  Py.contains Posixpath.sep file_extension = false
  /\ 4 <= String.length file_extension.
Proof.
  unfold accepted_extensions, image_extensions, video_extensions.
  cbn [app existsb]. intros H.
  repeat (apply orb_true_iff in H as [H|H];
          [apply String.eqb_eq in H; subst; split; [reflexivity|cbn; lia]|]).
  discriminate H.
Qed.

Section Candidates.
Context (env : environment).
Context (month_folder_path new_filename_base file_extension : string).
Context (Hsep : Py.contains Posixpath.sep file_extension = false).
Context (Hlen : 4 <= String.length file_extension).

Local Abbreviation cand k :=
  (Spec.candidate new_filename_base file_extension k).
Local Abbreviation path k := (Posixpath.join month_folder_path (cand k)).

Lemma candidate_suffix (k : nat) :
  cand k = new_filename_base +:+ Spec.suffix file_extension k.
Proof. destruct k; reflexivity. Qed.

Lemma suffix_no_sep (k : nat) :
  Py.contains Posixpath.sep (Spec.suffix file_extension k) = false.
Proof.
  destruct k as [|k]; [exact Hsep|]. unfold Spec.suffix.
  rewrite !contains_append, str_no_sep, Hsep. reflexivity.
Qed.

Lemma suffix_length (k : nat) :
  4 <= String.length (Spec.suffix file_extension k).
Proof.
  destruct k as [|k]; [exact Hlen|]. unfold Spec.suffix.
  rewrite !length_append. lia.
Qed.

Lemma suffix_inj (j k : nat) :
  Spec.suffix file_extension j = Spec.suffix file_extension k -> j = k.
Proof.
  destruct j as [|j], k as [|k]; unfold Spec.suffix; intros H.
  - reflexivity.
  - apply (f_equal String.length) in H. rewrite !length_append in H.
    cbn [String.length] in H. lia.
  - apply (f_equal String.length) in H. rewrite !length_append in H.
    cbn [String.length] in H. lia.
  - apply (append_inv_head "_") in H. apply append_inv_tail in H.
    apply str_inj in H. lia.
Qed.

(** A piece of four characters or more is an ordinary name. *)
Lemma resolve_step_name (comps : Fs.key) (c : string) :
  4 <= String.length c -> Fs.resolve_step comps c = comps ++ [c].
Proof.
  intros Hc. unfold Fs.resolve_step.
  destruct (String.eqb_spec c EmptyString) as [E|_];
    [rewrite E in Hc; cbn in Hc; lia|].
  destruct (String.eqb_spec c Posixpath.curdir) as [E|_];
    [rewrite E in Hc; cbn in Hc; lia|].
  destruct (String.eqb_spec c Posixpath.pardir) as [E|_];
    [rewrite E in Hc; cbn in Hc; lia|].
  reflexivity.
Qed.

(** The candidates resolve to the entries of one directory, under names
    that differ. *)
Lemma candidate_keys :
  exists (folder : Fs.key) (stem : string),
    forall k, Fs.resolve env (path k)
              = folder ++ [stem +:+ Spec.suffix file_extension k].
Proof.
  destruct (join_append month_folder_path new_filename_base) as [w Hw].
  destruct (split_append w) as (pieces & piece & Hsplit).
  unfold Fs.resolve.
  destruct (Py.startswith w Posixpath.sep_s) eqn:Hstart.
  - exists (fold_left Fs.resolve_step pieces []), piece. intros k.
    rewrite candidate_suffix, (Hw _ (suffix_no_sep k)).
    rewrite startswith_append, Hstart by apply suffix_no_sep.
    rewrite (Hsplit _ (suffix_no_sep k)), fold_left_app.
    cbn [fold_left]. apply resolve_step_name.
    pose proof (suffix_length k). rewrite length_append. lia.
  - exists (fold_left Fs.resolve_step
              (Py.split Posixpath.sep (cwd env) ++ pieces) []), piece.
    intros k.
    rewrite candidate_suffix, (Hw _ (suffix_no_sep k)).
    rewrite startswith_append, Hstart by apply suffix_no_sep.
    rewrite (Hsplit _ (suffix_no_sep k)), app_assoc, fold_left_app.
    cbn [fold_left]. apply resolve_step_name.
    pose proof (suffix_length k). rewrite length_append. lia.
Qed.
End Candidates.

Section LoopEnds.
Context (exists_ : string -> bool).
Context (month_folder_path new_filename_base file_extension : string).

Local Abbreviation cand k :=
  (Spec.candidate new_filename_base file_extension k).
Local Abbreviation path k := (Posixpath.join month_folder_path (cand k)).

(** The loop runs out of turns only when every candidate it tried
    exists. *)
Lemma handle_duplicates_none (fuel : nat) :
  forall j : nat,
    handle_duplicates fuel exists_ month_folder_path new_filename_base
      file_extension (N.of_nat (S j)) (cand j) (path j) = None ->
    forall k, j <= k < j + fuel -> exists_ (path k) = true.
Proof.
  induction fuel as [|fuel IH]; intros j H k Hk; [lia|].
  cbn [handle_duplicates] in H.
  destruct (exists_ (path j)) eqn:Hj; [|discriminate H].
  destruct (Nat.eq_dec k j) as [->|Hne]; [exact Hj|].
  replace (N.of_nat (S j) + 1)%N with (N.of_nat (S (S j))) in H by lia.
  apply (IH (S j)); [exact H|lia].
Qed.
End LoopEnds.

(** As many entries as there are keys that differ. *)
Lemma distinct_keys_size (t : gmap Fs.key node) (key : nat -> Fs.key)
    (n : nat) :
  (forall j k, key j = key k -> j = k) ->
  (forall k, k < n -> is_Some (t !! key k)) ->
  n <= size t.
Proof.
  intros Hinj Hin.
  assert (Hnodup : NoDup (key <$> seq 0 n)).
  { apply NoDup_fmap_2; [intros j k; apply Hinj|apply NoDup_seq]. }
  assert (Hlen : length (key <$> seq 0 n) = n)
    by (now rewrite length_fmap, length_seq).
  rewrite <- (size_dom (D := gset Fs.key) t), <- Hlen.
  rewrite <- (size_list_to_set (C := gset Fs.key) _ Hnodup).
  apply subseteq_size. intros x Hx.
  apply elem_of_list_to_set, list_elem_of_fmap in Hx as (k & -> & Hk).
  apply elem_of_dom, Hin. apply elem_of_seq in Hk. lia.
Qed.

Lemma lookup_key_snoc (env : environment) (t : gmap Fs.key node)
    (folder : Fs.key) (name : string) :
  Fs.lookup_key env t (folder ++ [name]) = t !! (folder ++ [name]).
Proof. destruct folder; reflexivity. Qed.

(** The loop has turns enough: were all its candidates taken, the tree
    would hold more entries than it has. *)
Lemma handle_duplicates_ends (env : environment) (t : gmap Fs.key node)
    (month_folder_path new_filename_base file_extension : string) :
  existsb (String.eqb file_extension) accepted_extensions = true ->
  exists k : nat,
    k <= size t
    /\ handle_duplicates (S (size t)) (Fs.path_exists env t)
         month_folder_path new_filename_base file_extension 1
         (new_filename_base +:+ file_extension)
         (Posixpath.join month_folder_path
            (new_filename_base +:+ file_extension))
       = Some (Spec.candidate new_filename_base file_extension k,
               Posixpath.join month_folder_path
                 (Spec.candidate new_filename_base file_extension k))
    /\ Fs.path_exists env t
         (Posixpath.join month_folder_path
            (Spec.candidate new_filename_base file_extension k)) = false
    /\ (forall i, i < k ->
          Fs.path_exists env t
            (Posixpath.join month_folder_path
               (Spec.candidate new_filename_base file_extension i))
          = true).
Proof.
  intros Hacc. apply accepted_extension_shape in Hacc as [Hsep Hlen].
  destruct (candidate_keys env month_folder_path new_filename_base
              file_extension Hsep Hlen) as (folder & stem & Hkey).
  set (key := fun k => folder ++ [stem +:+ Spec.suffix file_extension k]).
  assert (Hinj : forall j k, key j = key k -> j = k).
  { intros j k H. unfold key in H. apply app_inv_head in H.
    injection H as H. apply append_inv_head in H.
    now apply suffix_inj in H. }
  assert (Hsome : forall k,
             Fs.path_exists env t
               (Posixpath.join month_folder_path
                  (Spec.candidate new_filename_base file_extension k))
             = true -> is_Some (t !! key k)).
  { intros k H. unfold Fs.path_exists, Fs.lookup_path in H.
    rewrite Hkey, lookup_key_snoc in H. fold (key k) in H.
    destruct (t !! key k); [eauto|discriminate H]. }
  destruct (handle_duplicates (S (size t)) (Fs.path_exists env t)
              month_folder_path new_filename_base file_extension 1
              (new_filename_base +:+ file_extension)
              (Posixpath.join month_folder_path
                 (new_filename_base +:+ file_extension)))
    as [[new_filename destination_file_path]|] eqn:Hloop.
  - apply (handle_duplicates_inv _ _ _ _ _ 0) in Hloop
      as (k & _ & -> & -> & Hfree & Hex).
    exists k. split; [|split; [reflexivity|split; [exact Hfree|]]].
    + apply (distinct_keys_size t key k Hinj).
      intros i Hi. apply Hsome, Hex. lia.
    + intros i Hi. apply Hex. lia.
  - exfalso.
    pose proof (handle_duplicates_none _ _ _ _ _ 0 Hloop) as Hall.
    assert (S (size t) <= size t); [|lia].
    apply (distinct_keys_size t key _ Hinj).
    intros i Hi. apply Hsome, Hall. lia.
Qed.

(** X1. The loop that looks for a free name (lines 133-138) always
    ends: with an accepted extension and a tree of [size t] entries it
    stops after at most [size t] collisions, at the first candidate that
    does not exist: the candidates before it all exist. *)
Theorem collision_loop_ends (env : environment) (t : gmap Fs.key node)
    (month_folder_path new_filename_base file_extension : string) :
  existsb (String.eqb file_extension) accepted_extensions = true ->
  exists k : nat,
    k <= size t
    /\ handle_duplicates (S (size t)) (Fs.path_exists env t)
         month_folder_path new_filename_base file_extension 1
         (new_filename_base +:+ file_extension)
         (Posixpath.join month_folder_path
            (new_filename_base +:+ file_extension))
       = Some (Spec.candidate new_filename_base file_extension k,
               Posixpath.join month_folder_path
                 (Spec.candidate new_filename_base file_extension k))
    /\ Fs.path_exists env t
         (Posixpath.join month_folder_path
            (Spec.candidate new_filename_base file_extension k)) = false
    /\ (forall i, i < k ->
          Fs.path_exists env t
            (Posixpath.join month_folder_path
               (Spec.candidate new_filename_base file_extension i))
          = true).
Proof. apply handle_duplicates_ends. Qed.

(** A destination where the name and its [_1] variant are taken: the
    loop stops at [_2]. *)
Lemma collision_loop_ends_witness :
  handle_duplicates (S (size Example.crowded_tree))
    (Fs.path_exists Example.env Example.crowded_tree)
    "/out/2022/2022_07" "2022_07_04_Vacation_beach" ".jpg" 1
    ("2022_07_04_Vacation_beach" +:+ ".jpg")
    (Posixpath.join "/out/2022/2022_07"
       ("2022_07_04_Vacation_beach" +:+ ".jpg"))
  = Some ("2022_07_04_Vacation_beach_2.jpg",
          "/out/2022/2022_07/2022_07_04_Vacation_beach_2.jpg").
Proof.
  destruct (collision_loop_ends Example.env Example.crowded_tree
              "/out/2022/2022_07" "2022_07_04_Vacation_beach" ".jpg"
              eq_refl)
    as (k & _ & Hresult & Hfree & Hbelow).
  destruct k as [|[|[|k]]].
  - vm_compute in Hfree. discriminate Hfree.
  - vm_compute in Hfree. discriminate Hfree.
  - exact Hresult.
  - specialize (Hbelow 2 ltac:(lia)). vm_compute in Hbelow.
    discriminate Hbelow.
Defined.

(** With an accepted extension the plan is made or an exception is
    raised: the loop has turns enough. *)
Lemma plan_outcome (env : environment) (t : gmap Fs.key node)
    (destination_path normalized_source_path root filename
     file_extension : string) (determined_date : datetime) :
  existsb (String.eqb file_extension) accepted_extensions = true ->
  (exists r, plan env t destination_path normalized_source_path root
               filename file_extension determined_date = Done r)
  \/ (exists e, plan env t destination_path normalized_source_path root
                  filename file_extension determined_date = Raised e).
Proof.
  intros Hacc. unfold plan.
  destruct (Posixpath.relpath _ _ _) as [rel|e]; [|right; eauto].
  destruct (place _ _ _ _ _) as [pl|e] eqn:Hplace; [|right; eauto].
  assert (Htent : tentative_filename pl
                  = new_filename_base pl +:+ file_extension).
  { unfold place in Hplace. destruct (index _ _); [|discriminate Hplace].
    injection Hplace as <-. reflexivity. }
  rewrite Htent.
  destruct (handle_duplicates_ends env t (month_folder_path pl)
              (new_filename_base pl) file_extension Hacc)
    as (k & _ & -> & _).
  left. eauto.
Qed.

(** ** One turn of the loop, whatever happens (lines 84-155) *)

(** The turn for one file ends normally, and it moves the counters in
    one of four ways: a file that is not accepted is skipped; an accepted
    file is an error, or processed (when files are moved), or left
    uncounted (in what-if mode). *)
Lemma process_file_accounting (env : environment) (what_if : bool)
    (destination_path normalized_source_path root filename : string)
    (s : state) :
  let r := process_file env what_if destination_path normalized_source_path
             root filename s in
  snd r = Done tt
  /\ if existsb (String.eqb (Py.lower (snd (Posixpath.splitext filename))))
                accepted_extensions
     then counts (fst r)
          = (processed_count s, skipped_count s, S (error_count s))
          \/ counts (fst r)
             = ((if what_if then processed_count s
                 else S (processed_count s)),
                skipped_count s, error_count s)
     else counts (fst r)
          = (processed_count s, S (skipped_count s), error_count s)
          /\ fs (fst r) = fs s /\ out (fst r) = out s.
Proof.
  cbv zeta. unfold process_file.
  destruct (existsb _ accepted_extensions) eqn:Hacc; cbn [negb];
    [|repeat split; reflexivity].
  unfold try_except, process_try, mbind, M_bind, get, lift.
  destruct (get_file_date env (fs s) (Posixpath.join root filename))
    as [determined_date|e]; cbn;
    [|split; [reflexivity|left; reflexivity]].
  destruct (plan_outcome env (fs s) destination_path normalized_source_path
              root filename _ determined_date Hacc)
    as [[[[pl new_filename] destination_file_path] ->]|[e ->]]; cbn;
    [|split; [reflexivity|left; reflexivity]].
  destruct what_if; cbn; [split; [reflexivity|right; reflexivity]|].
  unfold fs_call; cbn.
  destruct (Fs.makedirs env (fs s) (year_folder_path pl)) as [t1 [e|]]; cbn;
    [split; [reflexivity|left; reflexivity]|].
  destruct (Fs.makedirs env t1 (month_folder_path pl)) as [t2 [e|]]; cbn;
    [split; [reflexivity|left; reflexivity]|].
  destruct (Fs.move env t2 (Posixpath.join root filename)
              destination_file_path) as [t3 [e|]]; cbn;
    [split; [reflexivity|left; reflexivity]|].
  split; [reflexivity|right; reflexivity].
Qed.

(** A loop whose turns all end normally and keep a component of the
    state. *)
Lemma for_each_keeps {A B} (proj : state -> B) (body : A -> M unit)
    (xs : list A) :
  (forall x s, snd (body x s) = Done tt /\ proj (fst (body x s)) = proj s) ->
  forall s, snd (for_each xs body s) = Done tt
            /\ proj (fst (for_each xs body s)) = proj s.
Proof.
  intros Hbody. induction xs as [|x xs IH]; intros s; cbn [for_each].
  - split; reflexivity.
  - unfold mbind, M_bind. destruct (Hbody x s) as [Hdone Hkeep].
    destruct (body x s) as [s' o]. cbn [fst snd] in *. subst o.
    destruct (IH s') as [Hdone' Hkeep'].
    split; [exact Hdone'|]. now rewrite Hkeep'.
Qed.

Lemma process_file_done (env : environment) (what_if : bool)
    (destination_path normalized_source_path root filename : string)
    (s : state) :
  snd (process_file env what_if destination_path normalized_source_path
         root filename s) = Done tt.
Proof.
  exact (proj1 (process_file_accounting env what_if destination_path
                  normalized_source_path root filename s)).
Qed.







(** X5. When files are to be moved and the answer to the question is
    not [yes] in some spelling of its letters, the script stops at once:
    it prints that the operation is cancelled and exits; the destination
    root is not made, no file is looked at and no counter moves. *)
Theorem cancel_changes_nothing (env : environment)
    (source_path destination_path : string)
    (walk : list (string * list string)) (s : state) :
  Py.lower (answer env) <> "yes" ->
  organize_files env source_path destination_path false walk s
  = (printed s [EvBanner source_path destination_path; EvCancelled],
     Exited).
Proof.
  intros Hno. unfold organize_files.
  destruct (String.eqb_spec (Py.lower (answer env)) "yes") as [E|_];
    [contradiction|].
  unfold mbind, M_bind, print, sys_exit, printed. cbn.
  rewrite <- app_assoc. reflexivity.
Qed.

(** The user who types [No]. *)
Lemma cancel_changes_nothing_witness :
  organize_files Example.env_no "/src" "/out" false Example.walk
    (initial Example.tree)
  = (printed (initial Example.tree) [EvBanner "/src" "/out"; EvCancelled],
     Exited).
Proof.
  apply (cancel_changes_nothing Example.env_no "/src" "/out" Example.walk
           (initial Example.tree)).
  vm_compute. intros H. discriminate H.
Defined.

(** ** Nothing is lost (lines 144-151) *)

Lemma grows_refl (env : environment) (t : gmap Fs.key node) : grows env t t.
Proof. split; [reflexivity|]. intros k n H. now left. Qed.

Lemma grows_trans (env : environment) (t1 t2 t3 : gmap Fs.key node) :
  grows env t1 t2 -> grows env t2 t3 -> grows env t1 t3.
Proof.
  intros [S12 N12] [S23 N23]. split.
  { etransitivity; eassumption. }
  intros k n H. destruct (N23 k n H) as [H2 | ->]; [|now right].
  exact (N12 k n H2).
Qed.

(** [os.makedirs] makes directories and touches nothing else, also when
    it raises half way. *)
Lemma makedirs_from_grows (env : environment) (todo : Fs.key) :
  forall (t : gmap Fs.key node) (done : Fs.key),
    grows env t (fst (Fs.makedirs_from env t done todo)).
Proof.
  induction todo as [|c rest IH]; intros t done; cbn [Fs.makedirs_from].
  - apply grows_refl.
  - destruct (t !! (done ++ [c])) as [n|] eqn:Hk.
    + destruct (n_is_dir n); [apply IH|apply grows_refl].
    + eapply grows_trans; [|apply IH]. split.
      * now apply insert_subseteq.
      * intros k n H. destruct (decide (k = done ++ [c])) as [-> | Hne].
        -- rewrite lookup_insert_eq in H. injection H as <-. now right.
        -- rewrite lookup_insert_ne in H by congruence. now left.
Qed.



(** ** Folders and names (lines 101-131) *)

Lemma month_name_of (m : N) :
  (m < 13)%N -> (1 <= m)%N ->
  index month_names (Z.of_N m - 1) = Ok (Datetime.zfill 2 (Py.str m)).
Proof.
  revert m. refine (N_lt_cases 13 _ _).
  each_number ltac:(intros Hm; solve [lia | reflexivity]).
Qed.

Lemma year_four_chars (y : N) :
  (1000 <= y)%N -> (y < 10000)%N -> String.length (Py.str y) = 4.
Proof.
  intros Hlow Hy.
  assert (Hall : forallb
            (fun n => Nat.eqb (String.length (Py.str (N.of_nat n))) 4)
            (seq 1000 (N.to_nat 9000)) = true)
    by (vm_compute; reflexivity).
  rewrite forallb_forall in Hall.
  specialize (Hall (N.to_nat y)). rewrite N2Nat.id in Hall.
  apply Nat.eqb_eq, Hall, in_seq. lia.
Qed.


Lemma year_few_chars (y : N) :
  (y < 1000)%N -> String.length (Py.str y) < 4.
Proof.
  intros Hy.
  assert (Hall : forallb
            (fun n => Nat.ltb (String.length (Py.str (N.of_nat n))) 4)
            (seq 0 1000) = true)
    by (vm_compute; reflexivity).
  rewrite forallb_forall in Hall.
  specialize (Hall (N.to_nat y)). rewrite N2Nat.id in Hall.
  apply Nat.ltb_lt, Hall, in_seq. lia.
Qed.

Lemma two_digits_length (v : N) :
  (v < 100)%N -> String.length (Datetime.zfill 2 (Py.str v)) = 2.
Proof.
  intros Hv.
  assert (Hall : forallb
            (fun n => Nat.eqb
                        (String.length
                           (Datetime.zfill 2 (Py.str (N.of_nat n)))) 2)
            (seq 0 100) = true)
    by (vm_compute; reflexivity).
  rewrite forallb_forall in Hall.
  specialize (Hall (N.to_nat v)). rewrite N2Nat.id in Hall.
  apply Nat.eqb_eq, Hall, in_seq. lia.
Qed.


(** X10. For a date of the calendar the folders and the name are always
    made: the look-up in the table of months does not fail; the year
    folder is the destination joined with the year as [strftime] writes
    it, the month folder the year, an underscore and the two digits of
    the month inside it, and the name is the date [%Y_%m_%d], the folder
    prefix, an underscore, the base name and the extension. From the year
    1000 on the date takes ten characters; an earlier year is written
    without leading zeros and the date is shorter. *)
Theorem place_valid_date
    (destination_path filename file_extension folder_prefix : string)
    (d : datetime) :
  Datetime.valid d = true ->
  place destination_path filename file_extension d folder_prefix
  = Ok (mkPlacement
          (Posixpath.join destination_path (Py.str (year d)))
          (Posixpath.join (Posixpath.join destination_path (Py.str (year d)))
             (Py.str (year d) +:+ "_" +:+ Datetime.fmt_m d))
          (Datetime.strftime_Y_m_d d +:+ folder_prefix +:+ "_"
           +:+ fst (Posixpath.splitext filename))
          (Datetime.strftime_Y_m_d d +:+ folder_prefix +:+ "_"
           +:+ fst (Posixpath.splitext filename) +:+ file_extension))
  /\ ((1000 <= year d)%N -> String.length (Datetime.strftime_Y_m_d d) = 10)
  /\ ((year d < 1000)%N -> String.length (Datetime.strftime_Y_m_d d) < 10).
Proof.
  intros Hv. apply valid_bounds in Hv as (HY & Hm & Hd & _).
  split; [|split].
  - unfold place. rewrite month_name_of by lia.
    unfold Datetime.strftime_Y, Datetime.fmt_Y, Datetime.fmt_m.
    rewrite !append_assoc. reflexivity.
  - intros Hlow.
    unfold Datetime.strftime_Y_m_d, Datetime.fmt_Y, Datetime.fmt_m,
      Datetime.fmt_d.
    rewrite !length_append, year_four_chars, !two_digits_length by lia.
    reflexivity.
  - intros Hlow.
    unfold Datetime.strftime_Y_m_d, Datetime.fmt_Y, Datetime.fmt_m,
      Datetime.fmt_d.
    rewrite !length_append, !two_digits_length by lia.
    pose proof (year_few_chars (year d) Hlow). cbn [String.length]. lia.
Qed.

(** The date of the example, and the second of January of the year 999,
    whose folder is [/out/999]. *)
Lemma place_valid_date_witness :
  (place "/out" "beach.JPG" ".jpg" Example.taken "_Vacation"
   = Ok (mkPlacement "/out/2022" "/out/2022/2022_07"
           "2022_07_04_Vacation_beach" "2022_07_04_Vacation_beach.jpg")
   /\ String.length (Datetime.strftime_Y_m_d Example.taken) = 10)
  /\ (place "/out" "beach.JPG" ".jpg" (mkDatetime 999 1 2 0 0 0 0) ""
      = Ok (mkPlacement "/out/999" "/out/999/999_01"
              "999_01_02_beach" "999_01_02_beach.jpg")
      /\ String.length
           (Datetime.strftime_Y_m_d (mkDatetime 999 1 2 0 0 0 0)) < 10).
Proof.
  split.
  - destruct (place_valid_date "/out" "beach.JPG" ".jpg" "_Vacation"
                Example.taken eq_refl) as (Hplace & Hlong & _).
    split; [exact Hplace|]. apply Hlong. vm_compute. discriminate.
  - destruct (place_valid_date "/out" "beach.JPG" ".jpg" ""
                (mkDatetime 999 1 2 0 0 0 0) eq_refl)
      as (Hplace & _ & Hshort).
    split; [exact Hplace|]. apply Hshort. vm_compute. reflexivity.
Defined.

Lemma all_chars_append (p : ascii -> bool) (s t : string) :
  Spec.all_chars p (s +:+ t) = Spec.all_chars p s && Spec.all_chars p t.
Proof.
  induction s as [|c s IH]; [reflexivity|].
  rewrite append_cons. cbn [Spec.all_chars]. rewrite IH.
  now rewrite andb_assoc.
Qed.

Lemma all_chars_filter (p : ascii -> bool) (s : string) :
  Spec.all_chars p (Py.filter_chars p s) = true.
Proof.
  induction s as [|c s IH]; [reflexivity|]. cbn [Py.filter_chars].
  destruct (p c) eqn:Hc; [|exact IH]. cbn [Spec.all_chars].
  now rewrite Hc, IH.
Qed.

Lemma all_chars_join (p : ascii -> bool) (sep : string)
    (parts : list string) :
  Spec.all_chars p sep = true ->
  List.Forall (fun part => Spec.all_chars p part = true) parts ->
  Spec.all_chars p (Py.join sep parts) = true.
Proof.
  intros Hsep Hparts. induction Hparts as [|part parts Hpart _ IH];
    [reflexivity|].
  destruct parts as [|q parts]; [exact Hpart|].
  change (Py.join sep (part :: q :: parts))
    with (part +:+ sep +:+ Py.join sep (q :: parts)).
  now rewrite !all_chars_append, Hpart, Hsep, IH.
Qed.

Lemma all_chars_contains (p : ascii -> bool) (c : ascii) (s : string) :
  Spec.all_chars p s = true -> p c = false -> Py.contains c s = false.
Proof.
  intros Hs Hc. induction s as [|d s IH]; [reflexivity|].
  cbn [Spec.all_chars Py.contains] in *.
  apply andb_true_iff in Hs as [Hd Hs]. rewrite (IH Hs), orb_false_r.
  destruct (Ascii.eqb_spec c d) as [->|]; [congruence|reflexivity].
Qed.

(** The prefix holds what the cleaning keeps, and it is empty or starts
    with an underscore. *)
Lemma folder_name_prefix_keep (relative_folder_path : string) :
  Spec.all_chars Spec.keep (folder_name_prefix relative_folder_path) = true
  /\ (folder_name_prefix relative_folder_path = EmptyString
      \/ Py.startswith (folder_name_prefix relative_folder_path) "_" = true).
Proof.
  unfold folder_name_prefix. rewrite clean_folder_names_spec.
  set (parts := if String.eqb relative_folder_path "." then []
                else Py.split Posixpath.sep relative_folder_path).
  assert (Hparts : List.Forall
                     (fun part => Spec.all_chars Spec.keep part = true)
                     (List.filter Py.truthy
                        (List.map Spec.clean_segment parts))).
  { apply List.Forall_forall. intros part Hin.
    apply List.filter_In in Hin as [Hin _].
    apply in_map_iff in Hin as (seg & <- & _).
    apply all_chars_filter. }
  destruct (List.filter Py.truthy (List.map Spec.clean_segment parts))
    as [|q qs] eqn:E; [split; [reflexivity|now left]|].
  split.
  2:{ right. rewrite append_cons. cbn [Py.startswith Ascii.eqb Bool.eqb].
      destruct (EmptyString +:+ Py.join "_" (q :: qs)); reflexivity. }
  rewrite all_chars_append.
  now rewrite (all_chars_join Spec.keep "_" (q :: qs) eq_refl Hparts).
Qed.

Lemma folder_name_prefix_no_sep (relative_folder_path : string) :
  Py.contains Posixpath.sep (folder_name_prefix relative_folder_path)
  = false.
Proof.
  apply (all_chars_contains Spec.keep); [|reflexivity].
  apply folder_name_prefix_keep.
Qed.

(** X11. The prefix made of the folder names is safe in a file name:
    whatever the relative folder is, the prefix holds only characters
    that are alphanumeric or an underscore, hence no path separator, and
    it is empty or starts with an underscore. *)
Theorem folder_prefix_alphabet (relative_folder_path : string) :
  Spec.all_chars (fun c => Py.isalnum c || Ascii.eqb c "_")
    (folder_name_prefix relative_folder_path) = true
  /\ Py.contains Posixpath.sep (folder_name_prefix relative_folder_path)
     = false
  /\ (folder_name_prefix relative_folder_path = EmptyString
      \/ Py.startswith (folder_name_prefix relative_folder_path) "_" = true).
Proof.
  destruct (folder_name_prefix_keep relative_folder_path) as [Hkeep Hshape].
  split; [exact Hkeep|]. split; [|exact Hshape].
  apply folder_name_prefix_no_sep.
Qed.

(** X12. Of the tags of an image only [DateTimeOriginal] gives a date:
    an image whose EXIF block can be read and has no such tag gets the
    date of the file system, whatever other tags ([DateTime],
    [DateTimeDigitized]) the block holds. *)
Theorem exif_needs_DateTimeOriginal (env : environment)
    (fs : gmap Fs.key node) (filepath : string) (n : node) (img : image)
    (items : exif_dict) :
  Fs.lookup_path env fs filepath = Some n ->
  n_open n = Ok img ->
  getexif img = Ok (Some items) ->
  exif_lookup items DateTimeOriginal = None ->
  get_exif_date env fs filepath = None
  /\ get_file_date env fs filepath = filesystem_date env fs filepath.
Proof.
  intros Hn Hopen Hexif Htag.
  assert (Hnone : get_exif_date env fs filepath = None).
  { unfold get_exif_date, get_exif_date_try, Fs.image_open.
    rewrite Hn, Hopen, Hexif.
    destruct (exif_truthy (Some items)); [|reflexivity].
    change (default [] (Some items)) with items.
    now rewrite scan_exif_lookup, Htag. }
  split; [exact Hnone|].
  unfold get_file_date, filesystem_date. rewrite Hnone.
  destruct (Py.endswith_any _ _); reflexivity.
Qed.

(** The scanned picture of the example: its [DateTime] is not used. *)
Lemma exif_needs_DateTimeOriginal_witness :
  get_exif_date Example.env Example.scan_tree "/src/scan.png" = None
  /\ get_file_date Example.env Example.scan_tree "/src/scan.png"
     = filesystem_date Example.env Example.scan_tree "/src/scan.png".
Proof.
  apply (exif_needs_DateTimeOriginal Example.env Example.scan_tree
           "/src/scan.png" Example.scan
           (mkImage (Ok (Some [(306%N, ExifText "2020:01:01 00:00:00")])))
           [(306%N, ExifText "2020:01:01 00:00:00")]).
  - vm_compute. reflexivity.
  - reflexivity.
  - reflexivity.
  - vm_compute. reflexivity.
Defined.

(** ** Where a moved file is (lines 118-147) *)


Section Paths.
Implicit Types (a b s t : string).










End Paths.










Lemma repeat_char_length (c : ascii) (n : nat) :
  String.length (Py.repeat_char c n) = n.
Proof. induction n as [|n IH]; cbn; [reflexivity|now rewrite IH]. Qed.


Lemma zfill_length (w : nat) (text : string) :
  w <= String.length (Datetime.zfill w text).
Proof.
  unfold Datetime.zfill. rewrite length_append, repeat_char_length. lia.
Qed.




(** A turn that counts its file as processed went all the way: the date
    was found, the plan made, both folders were there or made, and the
    move went through. *)
Lemma process_file_success (env : environment) (what_if : bool)
    (destination_path normalized_source_path root filename : string)
    (s : state) :
  let r := process_file env what_if destination_path normalized_source_path
             root filename s in
  processed_count (fst r) <> processed_count s ->
  what_if = false
  /\ existsb (String.eqb (Py.lower (snd (Posixpath.splitext filename))))
             accepted_extensions = true
  /\ exists d pl new_filename destination_file_path t1 t2 t3,
       get_file_date env (fs s) (Posixpath.join root filename) = Ok d
       /\ plan env (fs s) destination_path normalized_source_path root
               filename (Py.lower (snd (Posixpath.splitext filename))) d
          = Done (pl, new_filename, destination_file_path)
       /\ Fs.makedirs env (fs s) (year_folder_path pl) = (t1, None)
       /\ Fs.makedirs env t1 (month_folder_path pl) = (t2, None)
       /\ Fs.move env t2 (Posixpath.join root filename)
                  destination_file_path = (t3, None)
       /\ fst r
          = mkState t3
              (out s ++ [EvProcessing filename;
                         EvDetectedDate (Datetime.strftime_log d);
                         EvMovingTo destination_file_path;
                         EvSuccess filename new_filename])
              (S (processed_count s)) (skipped_count s) (error_count s).
Proof.
  cbv zeta. unfold process_file.
  destruct (existsb _ accepted_extensions) eqn:Hacc; cbn [negb];
    [|cbn; congruence].
  unfold try_except, process_try, mbind, M_bind, get, lift.
  destruct (get_file_date env (fs s) (Posixpath.join root filename))
    as [d|e] eqn:Hdate; cbn; [|congruence].
  destruct (plan env (fs s) destination_path normalized_source_path root
              filename _ d)
    as [[[pl new_filename] destination_file_path]|e| |] eqn:Hplan; cbn;
    try congruence.
  destruct what_if; cbn; [congruence|].
  unfold fs_call; cbn.
  destruct (Fs.makedirs env (fs s) (year_folder_path pl)) as [t1 [e|]]
    eqn:Hyear; cbn; [congruence|].
  destruct (Fs.makedirs env t1 (month_folder_path pl)) as [t2 [e|]]
    eqn:Hmonth; cbn; [congruence|].
  destruct (Fs.move env t2 (Posixpath.join root filename)
              destination_file_path) as [t3 [e|]] eqn:Hmove; cbn;
    [congruence|].
  intros _. split; [reflexivity|]. split; [reflexivity|].
  exists d, pl, new_filename, destination_file_path, t1, t2, t3.
  repeat split; try assumption. now rewrite <- !app_assoc.
Qed.




(** ** Files that are passed over (lines 84-87) *)

Lemma rfind_from_none (c : ascii) (s : string) :
  Py.contains c s = false ->
  forall i found, Posixpath.rfind_from c s i found = found.
Proof.
  induction s as [|d s IH]; intros H i found; [reflexivity|].
  cbn [Py.contains] in H. apply orb_false_iff in H as [Hd Hs].
  cbn [Posixpath.rfind_from]. rewrite Ascii.eqb_sym, Hd. now apply IH.
Qed.

Lemma rfind_from_lower (c : ascii) (s : string) :
  forall i found, (-1 <= found)%Z -> (0 <= i)%Z ->
                  (-1 <= Posixpath.rfind_from c s i found)%Z.
Proof.
  induction s as [|d s IH]; intros i found Hf Hi; [exact Hf|].
  cbn [Posixpath.rfind_from]. apply IH; [|lia].
  destruct (Ascii.eqb d c); lia.
Qed.

(** A name without a dot has no extension. *)
Lemma splitext_no_dot (p : string) :
  Py.contains "." p = false -> Posixpath.splitext p = (p, EmptyString).
Proof.
  intros H. unfold Posixpath.splitext, Posixpath.rfind.
  rewrite (rfind_from_none "." p H).
  pose proof (rfind_from_lower Posixpath.sep p 0 (-1)) as Hsep.
  destruct (_ <? _)%Z eqn:E; [|reflexivity].
  apply Z.ltb_lt in E. lia.
Qed.

(** X14. A file whose name has no dot is passed over: in either mode
    the turn counts it as skipped and does nothing else; no date is
    looked up, nothing is printed and the tree stays as it is. *)
Theorem dotless_file_skipped (env : environment) (what_if : bool)
    (destination_path normalized_source_path root filename : string)
    (s : state) :
  Py.contains "." filename = false ->
  process_file env what_if destination_path normalized_source_path root
               filename s
  = (mkState (fs s) (out s) (processed_count s) (S (skipped_count s))
             (error_count s), Done tt).
Proof.
  intros H. unfold process_file. rewrite (splitext_no_dot filename H).
  reflexivity.
Qed.

(** A file called [README]. *)
Lemma dotless_file_skipped_witness :
  process_file Example.env false "/out" "/src" "/src" "README"
               (initial Example.tree)
  = (mkState Example.tree [] 0 1 0, Done tt).
Proof.
  apply (dotless_file_skipped Example.env false "/out" "/src" "/src"
           "README" (initial Example.tree)).
  reflexivity.
Defined.

(** ** A tag with more than a date (lines 18-22) *)

(** The expression of the format matches the text of a date at the
    start of a longer text, and leaves the rest. *)
Lemma match_items_exif_text_rest (d : datetime) (rest : string) :
  Datetime.valid d = true ->
  Datetime.match_items Datetime.format_items (Datetime.exif_text d +:+ rest)
  = Some ([Datetime.exif_Y d; Datetime.fmt_m d; Datetime.fmt_d d;
           Datetime.fmt_H d; Datetime.fmt_M d; Datetime.fmt_S d],
          rest).
Proof.
  intros Hv. apply valid_bounds in Hv.
  destruct Hv as (HY & Hm & Hd & HH & HM & HS).
  unfold Datetime.exif_text, Datetime.format_items.
  rewrite !append_assoc.
  apply items_directive; [intros; apply group_Y; [lia|assumption]|].
  change (":" +:+ ?s) with (String ":" s). rewrite items_literal.
  apply items_directive; [intros; apply group_m; [lia|lia|assumption]|].
  change (":" +:+ ?s) with (String ":" s). rewrite items_literal.
  apply items_directive; [intros; apply group_d; [lia|lia|assumption]|].
  unfold Datetime.fmt_H at 1. rewrite items_whitespace by lia.
  apply items_directive; [intros; apply group_H; [lia|assumption]|].
  change (":" +:+ ?s) with (String ":" s). rewrite items_literal.
  apply items_directive; [intros; apply group_M; [lia|assumption]|].
  change (":" +:+ ?s) with (String ":" s). rewrite items_literal.
  apply items_directive; [intros; apply group_S; [lia|assumption]|].
  reflexivity.
Qed.

(** X15. A [DateTimeOriginal] that holds more than the date is not
    used: when the text of a date is followed by anything (fractions of
    a second, a time zone, a padding character), [strptime] raises
    [ValueError], the exception is swallowed, and the date of the image
    is that of the file system. *)
Theorem exif_trailing_text_ignored (env : environment)
    (fs : gmap Fs.key node) (filepath : string) (n : node) (img : image)
    (items : exif_dict) (d : datetime) (rest : string) :
  Fs.lookup_path env fs filepath = Some n ->
  n_open n = Ok img ->
  getexif img = Ok (Some items) ->
  exif_lookup items DateTimeOriginal
  = Some (ExifText (Datetime.exif_text d +:+ rest)) ->
  Datetime.valid d = true ->
  rest <> EmptyString ->
  Datetime.strptime (Datetime.exif_text d +:+ rest) = Raise ValueError
  /\ get_exif_date env fs filepath = None
  /\ get_file_date env fs filepath = filesystem_date env fs filepath.
Proof.
  intros Hn Hopen Hexif Htag Hvalid Hrest.
  assert (Hparse : Datetime.strptime (Datetime.exif_text d +:+ rest)
                   = Raise ValueError).
  { unfold Datetime.strptime.
    rewrite (match_items_exif_text_rest d rest Hvalid).
    destruct rest; [contradiction|reflexivity]. }
  assert (Hnone : get_exif_date env fs filepath = None).
  { unfold get_exif_date, get_exif_date_try, Fs.image_open.
    rewrite Hn, Hopen, Hexif.
    destruct (exif_truthy (Some items)); [|reflexivity].
    change (default [] (Some items)) with items.
    rewrite scan_exif_lookup, Htag. cbn [strptime_value].
    now rewrite Hparse. }
  split; [exact Hparse|]. split; [exact Hnone|].
  unfold get_file_date, filesystem_date. rewrite Hnone.
  destruct (Py.endswith_any _ _); reflexivity.
Qed.

(** The photograph with a time zone behind its date. *)
Lemma exif_trailing_text_ignored_witness :
  Datetime.strptime (Datetime.exif_text Example.taken +:+ "+02:00")
  = Raise ValueError
  /\ get_exif_date Example.env Example.zoned_tree "/src/zoned.jpg" = None
  /\ get_file_date Example.env Example.zoned_tree "/src/zoned.jpg"
     = filesystem_date Example.env Example.zoned_tree "/src/zoned.jpg".
Proof.
  apply (exif_trailing_text_ignored Example.env Example.zoned_tree
           "/src/zoned.jpg" (Example.photo "2022:07:04 10:00:00+02:00")
           (mkImage (Ok (Some [(271%N, ExifText "Camera");
                               (36867%N,
                                ExifText "2022:07:04 10:00:00+02:00")])))
           [(271%N, ExifText "Camera");
            (36867%N, ExifText "2022:07:04 10:00:00+02:00")]
           Example.taken "+02:00").
  - vm_compute. reflexivity.
  - reflexivity.
  - reflexivity.
  - vm_compute. reflexivity.
  - vm_compute. reflexivity.
  - discriminate.
Defined.

(** ** The prompts (lines 178-200) *)

(** X16. The prompt for the source takes the first line typed that is
    an existing directory: every line before it got the notice that the
    directory was not found, and the lines after it are left unread; when
    no line typed is a directory the script ends by [EOFError], after one
    notice per line. *)
Theorem ask_source_first_directory (env : environment)
    (t : gmap Fs.key node) (inputs : list string) :
  match Main.ask_source env t inputs with
  | (notices, Some (source_path, rest)) =>
      Main.isdir env t source_path = true
      /\ exists before,
           inputs = before ++ source_path :: rest
           /\ List.Forall (fun line => Main.isdir env t line = false) before
           /\ notices = List.map (fun _ => Main.SourceNotFound) before
  | (notices, None) =>
      List.Forall (fun line => Main.isdir env t line = false) inputs
      /\ notices = List.map (fun _ => Main.SourceNotFound) inputs
  end.
Proof.
  induction inputs as [|line rest IH]; cbn [Main.ask_source].
  - split; [constructor|reflexivity].
  - destruct (Main.isdir env t line) eqn:Hline.
    + split; [exact Hline|]. exists []. repeat split. constructor.
    + destruct (Main.ask_source env t rest) as [notices [[p rest']|]].
      * destruct IH as (Hp & before & -> & Hbefore & ->).
        split; [exact Hp|]. exists (line :: before).
        repeat split. now constructor.
      * destruct IH as [Hall ->]. split; [now constructor|reflexivity].
Qed.

Lemma ask_destination_answer (path_exists path_isdir : string -> bool)
    (n : nat) :
  forall (inputs : list string) (notices : list Main.notice)
         (destination_path : string) (rest : list string),
    length inputs <= n ->
    Main.ask_destination path_exists path_isdir inputs
    = (notices, Some (destination_path, rest)) ->
    (path_isdir destination_path = true
     /\ exists before, inputs = before ++ destination_path :: rest)
    \/ (path_isdir destination_path = false
        /\ path_exists destination_path = false
        /\ exists before line,
             inputs = before ++ destination_path :: line :: rest
             /\ Py.lower line = "yes").
Proof.
  induction n as [|n IH]; intros inputs notices p rest Hlen H.
  - destruct inputs; [discriminate H|cbn in Hlen; lia].
  - destruct inputs as [|d inputs]; [discriminate H|].
    cbn [length] in Hlen. cbn [Main.ask_destination] in H.
    destruct (path_exists d && negb (path_isdir d)) eqn:Hfile.
    { destruct (Main.ask_destination path_exists path_isdir inputs)
        as [ns ans] eqn:E.
      injection H as <- ->.
      destruct (IH inputs ns p rest ltac:(lia) E)
        as [(Hp & before & ->)|(Hd & Hp & before & line & -> & Hyes)].
      - left. split; [exact Hp|]. now exists (d :: before).
      - right. split; [exact Hd|]. split; [exact Hp|].
        now exists (d :: before), line. }
    destruct (path_isdir d) eqn:Hdir.
    { injection H as <- <- <-. left. split; [exact Hdir|]. now exists []. }
    destruct inputs as [|line inputs]; [discriminate H|].
    cbn [length] in Hlen.
    destruct (String.eqb_spec (Py.lower line) "yes") as [Hyes|Hno].
    { injection H as <- <- <-. right. split; [exact Hdir|]. split.
      - rewrite andb_false_iff in Hfile. destruct Hfile as [Hex|Hnd];
          [exact Hex|discriminate Hnd].
      - now exists [], line. }
    destruct (Main.ask_destination path_exists path_isdir inputs)
      as [ns ans] eqn:E.
    injection H as <- ->.
    destruct (IH inputs ns p rest ltac:(lia) E)
      as [(Hp & before & ->)|(Hd & Hp & before & line' & -> & Hyes)].
    + left. split; [exact Hp|]. now exists (d :: line :: before).
    + right. split; [exact Hd|]. split; [exact Hp|].
      now exists (d :: line :: before), line'.
Qed.

(** X17. The prompt for the destination takes a path on the answers of
    [os.path.exists] and [os.path.isdir] alone, whatever the two answer:
    the path it ends with was typed, and either [os.path.isdir] says yes
    for it, or both say no and the line typed after it is [yes] in some
    spelling of its letters. A path for which [os.path.exists] says yes
    and [os.path.isdir] no is never taken. *)
Theorem ask_destination_safe (path_exists path_isdir : string -> bool)
    (inputs : list string) (notices : list Main.notice)
    (destination_path : string) (rest : list string) :
  Main.ask_destination path_exists path_isdir inputs
  = (notices, Some (destination_path, rest)) ->
  (path_isdir destination_path = true
   /\ exists before, inputs = before ++ destination_path :: rest)
  \/ (path_isdir destination_path = false
      /\ path_exists destination_path = false
      /\ exists before line,
           inputs = before ++ destination_path :: line :: rest
           /\ Py.lower line = "yes").
Proof.
  apply (ask_destination_answer path_exists path_isdir (length inputs)). lia.
Qed.

(** On the tree of the example a file is refused, a new directory is
    declined once and then agreed to. *)
Lemma ask_destination_safe_witness :
  (Main.isdir Example.env Example.tree "/new" = true
   /\ exists before,
        ["/src/Vacation/beach.JPG"; "/new"; "no"; "/new"; "YES"; "later"]
        = before ++ "/new" :: ["later"])
  \/ (Main.isdir Example.env Example.tree "/new" = false
      /\ Main.exists_ Example.env Example.tree "/new" = false
      /\ exists before line,
           ["/src/Vacation/beach.JPG"; "/new"; "no"; "/new"; "YES"; "later"]
           = before ++ "/new" :: line :: ["later"]
           /\ Py.lower line = "yes").
Proof.
  apply (ask_destination_safe
           (Main.exists_ Example.env Example.tree)
           (Main.isdir Example.env Example.tree)
           ["/src/Vacation/beach.JPG"; "/new"; "no"; "/new"; "YES"; "later"]
           [Main.DestinationNotADirectory; Main.ProvideDestination]
           "/new" ["later"]).
  vm_compute. reflexivity.
Defined.

(** ** Planning is a function of its inputs (lines 99-138) *)

(** [os.makedirs] on the tree it left does what it did and changes
    nothing. *)
Lemma makedirs_from_again (env : environment) (todo : Fs.key) :
  forall (t : gmap Fs.key node) (done : Fs.key),
    Fs.makedirs_from env (fst (Fs.makedirs_from env t done todo)) done todo
    = Fs.makedirs_from env t done todo.
Proof.
  induction todo as [|c rest IH]; intros t done; [reflexivity|].
  cbn [Fs.makedirs_from].
  destruct (t !! (done ++ [c])) as [n|] eqn:Hk.
  - destruct (n_is_dir n) eqn:Hdir.
    + pose proof (makedirs_from_grows env rest t (done ++ [c])) as [Hsub _].
      pose proof (lookup_weaken _ _ _ _ Hk Hsub) as Hk'.
      cbn [Fs.makedirs_from]. rewrite Hk', Hdir. apply IH.
    + cbn [fst Fs.makedirs_from]. rewrite Hk, Hdir. reflexivity.
  - pose proof (makedirs_from_grows env rest
                  (<[done ++ [c] := Fs.dir_node env]> t) (done ++ [c]))
      as [Hsub _].
    assert (Hk' : fst (Fs.makedirs_from env
                         (<[done ++ [c] := Fs.dir_node env]> t)
                         (done ++ [c]) rest) !! (done ++ [c])
                  = Some (Fs.dir_node env)).
    { eapply lookup_weaken; [|exact Hsub]. apply lookup_insert_eq. }
    cbn [Fs.makedirs_from]. rewrite Hk'. cbn [Fs.dir_node n_is_dir].
    apply IH.
Qed.

(** A folder without files takes no turn of the loop. *)
Lemma for_each_folders (body : string -> string -> M unit)
    (walk : list (string * list string)) (s : state) :
  for_each (List.filter (fun entry => negb (Nat.eqb (length (snd entry)) 0)) walk)
    (fun '(root, files) => for_each files (body root)) s
  = for_each walk (fun '(root, files) => for_each files (body root)) s.
Proof.
  revert s. induction walk as [|[root files] walk IH]; intros s;
    [reflexivity|].
  cbn [List.filter snd]. destruct files as [|f files]; cbn [length Nat.eqb negb].
  - cbn [for_each]. unfold mbind, M_bind, mret, M_ret. apply IH.
  - cbn [for_each]. unfold mbind, M_bind.
    destruct (body root f s) as [s1 [[]| | |]]; try reflexivity.
    destruct (for_each files (body root) s1) as [s2 [[]| | |]];
      try reflexivity.
    apply IH.
Qed.

(** C10. Planning is deterministic, and more: the plan of a file depends
    on the tree only through what [os.path.exists] answers, and on the
    folder of the file only through its path relative to the source.
    Two trees with the same existing paths and two folders with the same
    relative path give the same plan for a name, an accepted extension
    and a date. Hence a second dry run, started on the tree the first one
    left and walking the same folders with files, ends in the very state
    and outcome of the first: the same lines, the same plans, the same
    counters. *)
Theorem C10_planning_deterministic (env : environment)
    (destination_path : string) :
  (forall (t1 t2 : gmap Fs.key node)
          (normalized_source_path1 root1 normalized_source_path2 root2
           filename file_extension : string) (determined_date : datetime),
      existsb (String.eqb file_extension) accepted_extensions = true ->
      Posixpath.relpath (cwd env) root1 normalized_source_path1
      = Posixpath.relpath (cwd env) root2 normalized_source_path2 ->
      (forall p, Fs.path_exists env t1 p = Fs.path_exists env t2 p) ->
      plan env t1 destination_path normalized_source_path1 root1 filename
           file_extension determined_date
      = plan env t2 destination_path normalized_source_path2 root2 filename
             file_extension determined_date)
  /\ (forall (source_path : string) (walk walk' : list (string * list string))
             (t : gmap Fs.key node),
        List.filter (fun entry => negb (Nat.eqb (length (snd entry)) 0)) walk'
        = List.filter (fun entry => negb (Nat.eqb (length (snd entry)) 0)) walk ->
        let first :=
          organize_files env source_path destination_path true walk
            (initial t) in
        organize_files env source_path destination_path true walk'
          (initial (fs (fst first)))
        = first).
Proof.
  split.
  - intros t1 t2 nsp1 root1 nsp2 root2 filename ext d Hacc Hrel Hsame.
    unfold plan. rewrite Hrel. clear Hrel.
    destruct (Posixpath.relpath (cwd env) root2 nsp2) as [rel|e];
      [|reflexivity].
    destruct (place _ _ _ _ _) as [pl|e] eqn:Hplace; [|reflexivity].
    assert (Htent : tentative_filename pl
                    = new_filename_base pl +:+ ext).
    { unfold place in Hplace. destruct (index _ _); [|discriminate Hplace].
      now injection Hplace as <-. }
    rewrite Htent.
    destruct (handle_duplicates_ends env t1 (month_folder_path pl)
                (new_filename_base pl) ext Hacc)
      as (k1 & _ & -> & Hfree1 & Hbelow1).
    destruct (handle_duplicates_ends env t2 (month_folder_path pl)
                (new_filename_base pl) ext Hacc)
      as (k2 & _ & -> & Hfree2 & Hbelow2).
    assert (k1 = k2) as ->; [|reflexivity].
    destruct (Nat.lt_trichotomy k1 k2) as [Hlt|[Heq|Hgt]]; [|exact Heq|].
    + specialize (Hbelow2 k1 Hlt). rewrite <- Hsame in Hbelow2. congruence.
    + specialize (Hbelow1 k2 Hgt). rewrite Hsame in Hbelow1. congruence.
  - intros source_path walk walk' t Hwalk. cbv zeta.
    rewrite organize_files_what_if_fs. cbn [fs initial].
    unfold organize_files, mbind, M_bind, print, fs_call.
    cbn [fs out processed_count skipped_count error_count initial].
    unfold Fs.makedirs. rewrite makedirs_from_again.
    destruct (Fs.makedirs_from env t [] (Fs.resolve env destination_path))
      as [t' [e|]]; [reflexivity|].
    cbn [fs out processed_count skipped_count error_count].
    rewrite <- (for_each_folders
                  (process_file env true destination_path
                     (Posixpath.normpath source_path)) walk').
    rewrite <- (for_each_folders
                  (process_file env true destination_path
                     (Posixpath.normpath source_path)) walk).
    rewrite Hwalk. reflexivity.
Qed.

(** Two source trees with a folder [Vacation] and trees that differ in
    what the file is: the plans agree. And a destination inside the
    source: the second walk finds the folder that the first run made,
    without files. *)
Lemma C10_witness :
  plan Example.env Example.tree "/out" "/src" "/src/Vacation" "beach.JPG"
       ".jpg" Example.taken
  = plan Example.env Example.retouched_tree "/out" "/other" "/other/Vacation"
         "beach.JPG" ".jpg" Example.taken
  /\ organize_files Example.env "/src" "/src/out" true
       (Example.walk ++ [("/src/out", [])])
       (initial (fs (fst (organize_files Example.env "/src" "/src/out" true
                            Example.walk (initial Example.tree)))))
     = organize_files Example.env "/src" "/src/out" true Example.walk
         (initial Example.tree).
Proof.
  destruct (C10_planning_deterministic Example.env "/out") as [Hplan _].
  destruct (C10_planning_deterministic Example.env "/src/out") as [_ Hrun].
  split.
  - apply Hplan; [reflexivity|reflexivity|].
    intros p. unfold Fs.path_exists, Fs.lookup_path, Fs.lookup_key.
    destruct (Fs.resolve Example.env p) as [|a k]; [reflexivity|].
    unfold Example.retouched_tree.
    destruct (decide (a :: k = ["src"; "Vacation"; "beach.JPG"]))
      as [-> | Hne].
    + rewrite lookup_insert_eq. reflexivity.
    + rewrite lookup_insert_ne by congruence. reflexivity.
  - apply (Hrun "/src" Example.walk (Example.walk ++ [("/src/out", [])])
             Example.tree).
    reflexivity.
Defined.

(** ** Two files in a row (lines 133-147) *)

(** The month folder is made from the destination and the date. *)
Lemma place_month_folder
    (destination_path filename1 file_extension1 prefix1 filename2
     file_extension2 prefix2 : string) (d : datetime) (pl1 pl2 : placement) :
  place destination_path filename1 file_extension1 d prefix1 = Ok pl1 ->
  place destination_path filename2 file_extension2 d prefix2 = Ok pl2 ->
  month_folder_path pl1 = month_folder_path pl2.
Proof.
  unfold place. destruct (index _ _); [|discriminate].
  intros H1 H2. injection H1 as <-. injection H2 as <-. reflexivity.
Qed.

(** C7. Two files that are moved one after the other: the second is
    planned on the tree the first move left, and its name is one for
    which [os.path.exists] answers no. So when [os.path.exists] sees the
    first file at its new path, the two destination paths differ, and for
    files of the same date, which go into the same month folder, the two
    names differ. The condition is on what [os.path.exists] answers, not
    on what is at the path. *)
Theorem C7_names_distinct_when_first_is_seen (env : environment)
    (destination_path normalized_source_path root filename1 filename2 : string)
    (s : state) :
  let r1 := process_file env false destination_path normalized_source_path
              root filename1 s in
  let r2 := process_file env false destination_path normalized_source_path
              root filename2 (fst r1) in
  processed_count (fst r1) <> processed_count s ->
  processed_count (fst r2) <> processed_count (fst r1) ->
  exists (d1 d2 : datetime) (pl1 pl2 : placement)
         (new_filename1 new_filename2 : string),
    get_file_date env (fs s) (Posixpath.join root filename1) = Ok d1
    /\ get_file_date env (fs (fst r1)) (Posixpath.join root filename2)
       = Ok d2
    /\ plan env (fs s) destination_path normalized_source_path root
            filename1 (Py.lower (snd (Posixpath.splitext filename1))) d1
       = Done (pl1, new_filename1,
               Posixpath.join (month_folder_path pl1) new_filename1)
    /\ plan env (fs (fst r1)) destination_path normalized_source_path root
            filename2 (Py.lower (snd (Posixpath.splitext filename2))) d2
       = Done (pl2, new_filename2,
               Posixpath.join (month_folder_path pl2) new_filename2)
    /\ (Fs.path_exists env (fs (fst r1))
          (Posixpath.join (month_folder_path pl1) new_filename1) = true ->
        Posixpath.join (month_folder_path pl1) new_filename1
        <> Posixpath.join (month_folder_path pl2) new_filename2
        /\ (d1 = d2 -> new_filename1 <> new_filename2)).
Proof.
  cbv zeta. intros Hcount1 Hcount2.
  destruct (process_file_success env false destination_path
              normalized_source_path root filename1 s Hcount1)
    as (_ & _ & d1 & pl1 & n1 & dfp1 & _ & _ & _
        & Hdate1 & Hplan1 & _ & _ & _ & _).
  destruct (process_file_success env false destination_path
              normalized_source_path root filename2 _ Hcount2)
    as (_ & _ & d2 & pl2 & n2 & dfp2 & _ & _ & _
        & Hdate2 & Hplan2 & _ & _ & _ & _).
  destruct (plan_shape _ _ _ _ _ _ _ _ _ _ _ Hplan1)
    as (rel1 & k1 & _ & Hplace1 & _ & Hdfp1 & _).
  destruct (plan_shape _ _ _ _ _ _ _ _ _ _ _ Hplan2)
    as (rel2 & k2 & _ & Hplace2 & _ & Hdfp2 & Hfree2 & _).
  subst dfp1 dfp2.
  exists d1, d2, pl1, pl2, n1, n2.
  split; [exact Hdate1|]. split; [exact Hdate2|].
  split; [exact Hplan1|]. split; [exact Hplan2|].
  intros Hseen.
  assert (Hpaths : Posixpath.join (month_folder_path pl1) n1
                   <> Posixpath.join (month_folder_path pl2) n2).
  { intros Heq. rewrite Heq in Hseen. congruence. }
  split; [exact Hpaths|].
  intros <- Hnames. apply Hpaths.
  rewrite (place_month_folder _ _ _ _ _ _ _ _ _ _ Hplace1 Hplace2), Hnames.
  reflexivity.
Qed.

(** [beach.JPG] and [beach.jpg] of the same day in one folder: the
    second gets the name with [_1]. *)
Lemma C7_witness :
  let r1 := process_file Example.env false "/out" "/src" "/src/Vacation"
              "beach.JPG" (initial Example.twin_tree) in
  let r2 := process_file Example.env false "/out" "/src" "/src/Vacation"
              "beach.jpg" (fst r1) in
  exists (pl1 pl2 : placement),
    plan Example.env (fs (initial Example.twin_tree)) "/out" "/src"
         "/src/Vacation" "beach.JPG" ".jpg" Example.taken
    = Done (pl1, "2022_07_04_Vacation_beach.jpg",
            "/out/2022/2022_07/2022_07_04_Vacation_beach.jpg")
    /\ plan Example.env (fs (fst r1)) "/out" "/src" "/src/Vacation"
            "beach.jpg" ".jpg" Example.taken
       = Done (pl2, "2022_07_04_Vacation_beach_1.jpg",
               "/out/2022/2022_07/2022_07_04_Vacation_beach_1.jpg")
    /\ "2022_07_04_Vacation_beach.jpg" <> "2022_07_04_Vacation_beach_1.jpg".
Proof.
  cbv zeta.
  destruct (C7_names_distinct_when_first_is_seen Example.env "/out" "/src"
              "/src/Vacation" "beach.JPG" "beach.jpg"
              (initial Example.twin_tree))
    as (d1 & d2 & pl1 & pl2 & n1 & n2 & Hdate1 & Hdate2 & Hplan1 & Hplan2
        & Hdistinct).
  - vm_compute. discriminate.
  - vm_compute. discriminate.
  - pose proof Hdate1 as E1. vm_compute in E1. injection E1 as <-.
    pose proof Hdate2 as E2. vm_compute in E2. injection E2 as <-.
    pose proof Hplan1 as P1. vm_compute in P1. injection P1 as <- <- _.
    pose proof Hplan2 as P2. vm_compute in P2. injection P2 as <- <- _.
    eexists _, _.
    split; [exact Hplan1|]. split; [exact Hplan2|].
    assert (Hseen : Fs.path_exists Example.env
                      (fs (fst (process_file Example.env false "/out" "/src"
                                  "/src/Vacation" "beach.JPG"
                                  (initial Example.twin_tree))))
                      "/out/2022/2022_07/2022_07_04_Vacation_beach.jpg"
                    = true)
      by (vm_compute; reflexivity).
    exact (proj2 (Hdistinct Hseen) eq_refl).
Defined.

(** ** Errors of one file and the rest of the run (lines 91-155) *)

(** With a standard output that takes every line, the program of
    [Console] is the program above. *)
Lemma console_takes_every_line (env : environment)
    (source_path destination_path : string) (what_if : bool)
    (walk : list (string * list string)) :
  Console.organize_files env (fun _ => None) source_path destination_path
    what_if walk
  = organize_files env source_path destination_path what_if walk.
Proof. reflexivity. Qed.

(** C9. The handler of line 153 keeps the error of a file from the rest
    of the run as far as its own line can be written. When the body of
    the [try] raises [e] for an accepted file and the standard output
    takes the line [ERROR processing ...], the turn ends normally with
    the error counted; when the standard output refuses that line with
    [e'], which it does for a file name it cannot encode, [e'] leaves the
    handler and the loop: no later file of the folder gets a turn and the
    error is not counted. On the example, with an ASCII terminal, the
    unreadable video [Example.cafe] ends the run with [UnicodeEncodeError], and
    the photograph that comes after it stays where it was; with a
    terminal that takes every line the same run counts one error, moves
    the photograph and ends normally. *)
Theorem C9_refused_error_line_ends_run :
  (forall (env : environment) (stdout : event -> option exn)
          (what_if : bool)
          (destination_path normalized_source_path root filename : string)
          (s s1 : state) (e : exn),
      existsb (String.eqb (Py.lower (snd (Posixpath.splitext filename))))
              accepted_extensions = true ->
      Console.process_try env stdout what_if destination_path
        normalized_source_path root filename
        (Py.lower (snd (Posixpath.splitext filename)))
        (Posixpath.join root filename) s
      = (s1, Raised e) ->
      (stdout (EvError filename e) = None ->
       forall files_after,
         for_each (filename :: files_after)
           (Console.process_file env stdout what_if destination_path
              normalized_source_path root) s
         = for_each files_after
             (Console.process_file env stdout what_if destination_path
                normalized_source_path root) (reported s1 filename e))
      /\ (forall e', stdout (EvError filename e) = Some e' ->
          forall files_after,
            for_each (filename :: files_after)
              (Console.process_file env stdout what_if destination_path
                 normalized_source_path root) s
            = (s1, Raised e')))
  /\ (let r := Console.organize_files Example.env Console.ascii_only
                 "/src" "/out" false Example.cafe_walk
                 (initial Example.cafe_tree) in
      snd r = Raised UnicodeEncodeError
      /\ counts (fst r) = (0, 0, 0)
      /\ fs (fst r) !! ["src"; "Vacation"; "beach.JPG"]
         = Some (Example.photo "2022:07:04 10:00:00")
      /\ out (fst r) = [EvBanner "/src" "/out"; EvStarting])
  /\ (let r := organize_files Example.env "/src" "/out" false
                 Example.cafe_walk (initial Example.cafe_tree) in
      snd r = Done tt
      /\ counts (fst r) = (1, 0, 1)
      /\ fs (fst r) !! ["src"; "Vacation"; "beach.JPG"] = None
      /\ Fs.path_exists Example.env (fs (fst r))
           "/out/2022/2022_07/2022_07_04_Vacation_beach.jpg" = true).
Proof.
  split; [|split].
  - intros env stdout what_if destination_path normalized_source_path root
      filename s s1 e Hacc Hbody.
    split.
    + intros Hline files_after. cbn [for_each].
      unfold mbind at 1, M_bind at 1.
      unfold Console.process_file at 1. cbv zeta. rewrite Hacc.
      cbn [negb]. unfold try_except. rewrite Hbody.
      unfold mbind at 1, M_bind at 1, Console.print. rewrite Hline.
      reflexivity.
    + intros e' Hline files_after. cbn [for_each].
      unfold mbind at 1, M_bind at 1.
      unfold Console.process_file at 1. cbv zeta. rewrite Hacc.
      cbn [negb]. unfold try_except. rewrite Hbody.
      unfold mbind at 1, M_bind at 1, Console.print. rewrite Hline.
      reflexivity.
  - vm_compute. repeat split; reflexivity.
  - vm_compute. repeat split; reflexivity.
Qed.
